(** * Movie-Search: the favourite toggle and the paginated search session

    A shallow embedding of the two stateful pieces of the application:
    - [app/movie/[id].tsx]: [checkIfFavorite] and [toggleFavorite], a
      read-modify-write cycle over the ['favorites'] entry of AsyncStorage;
    - [app/(tabs)/index.tsx]: [searchMovies], [handleSearch] and [loadMore],
      the search screen's React state driven by asynchronous fetches.

    React state is a record; every handler is a function on that record.
    An [async] function is cut at its [await]: the part before it runs with
    the event that calls it, the part after it runs when the awaited promise
    settles.  Exceptions are values of a small error monad and [try/catch]
    is a match on them. *)

From Stdlib Require Import List Bool NArith ZArith String Ascii Lia.
Import ListNotations.

Set Implicit Arguments.

(** ** JavaScript texts *)

Module JS.

(** A JavaScript string is a sequence of UTF-16 code units. *)
Definition text := list N.

(** Embedding of an ASCII literal of the source. *)
Fixpoint lit (s : string) : text :=
  match s with
  | EmptyString => []
  | String c r => N_of_ascii c :: lit r
  end.

(** [a === b] on strings. *)
Fixpoint eqb (a b : text) : bool :=
  match a, b with
  | [], [] => true
  | x :: a', y :: b' => N.eqb x y && eqb a' b'
  | _, _ => false
  end.

(** Truthiness of a string: every string but the empty one. *)
Definition truthy (a : text) : bool :=
  match a with
  | [] => false
  | _ :: _ => true
  end.

(** WhiteSpace and LineTerminator code points of ECMAScript, the
    characters [String.prototype.trim] strips. *)
Definition isWhiteSpace (c : N) : bool :=
  ((9 <=? c) && (c <=? 13)          (* TAB, LF, VT, FF, CR *)
   || (c =? 32)                      (* SPACE *)
   || (c =? 160)                     (* NO-BREAK SPACE *)
   || (c =? 5760)                    (* U+1680 *)
   || ((8192 <=? c) && (c <=? 8202)) (* U+2000 .. U+200A *)
   || (c =? 8232) || (c =? 8233)     (* U+2028, U+2029 *)
   || (c =? 8239)                    (* U+202F *)
   || (c =? 8287)                    (* U+205F *)
   || (c =? 12288)                   (* U+3000 *)
   || (c =? 65279))%N.               (* U+FEFF *)

Fixpoint trimStart (a : text) : text :=
  match a with
  | [] => []
  | c :: a' => if isWhiteSpace c then trimStart a' else a
  end.

Definition trimEnd (a : text) : text := rev (trimStart (rev a)).

Definition trim (a : text) : text := trimEnd (trimStart a).

(** [encodeURIComponent] raises URIError on a lone surrogate; [encodable]
    tells whether it returns. *)
Definition isHigh (c : N) : bool := ((55296 <=? c) && (c <=? 56319))%N.
Definition isLow (c : N) : bool := ((56320 <=? c) && (c <=? 57343))%N.

Fixpoint encodable (a : text) : bool :=
  match a with
  | [] => true
  | c :: a' =>
      if isLow c then false
      else if isHigh c then
        match a' with
        | d :: a'' => isLow d && encodable a''
        | [] => false
        end
      else encodable a'
  end.

End JS.

(** ** Exceptions *)

Inductive result (A : Type) : Type :=
| Ok (a : A)
| Throw.
Arguments Throw {A}.

Definition bind {A B : Type} (r : result A) (k : A -> result B) : result B :=
  match r with
  | Ok a => k a
  | Throw => Throw
  end.

Notation "x <- r ;; k" := (bind r (fun x => k))
  (at level 61, r at next level, right associativity).

(** ** Movie records *)

(** [interface Movie] of the list screens, also the shape of the object
    literal that [toggleFavorite] pushes. *)
Module Movie.
Record t : Type := Build {
  imdbID : JS.text;
  Title : JS.text;
  Year : JS.text;
  Poster : JS.text
}.
End Movie.

(** [interface MovieDetails] of the detail screen. *)
Module MovieDetails.
Record t : Type := Build {
  Title : JS.text;
  Year : JS.text;
  Rated : JS.text;
  Runtime : JS.text;
  Genre : JS.text;
  Director : JS.text;
  Actors : JS.text;
  Plot : JS.text;
  Poster : JS.text;
  imdbRating : JS.text;
  imdbID : JS.text
}.
End MovieDetails.

(** ** The detail screen, [app/movie/[id].tsx] *)

Module Favorites.

(** What AsyncStorage holds under the key ['favorites'], seen through
    [JSON.parse]: nothing ([getItem] gives [null]), the empty string, a
    text that parses to an array of movie objects, or a text on which
    [JSON.parse] raises or whose value is not an array (then [filter],
    [push] and [some] raise TypeError).  [JSON.stringify] of an array of
    movie objects is a text that parses back to that array, so [setItem]
    of it leaves [Json] of the array.  Arrays of anything but movie
    objects, which no screen writes, are outside this type. *)
Inductive Stored : Type :=
| Absent
| EmptyText
| Json (favorites : list Movie.t)
| Malformed.

(** [storedFavorites ? ... : ...] *)
Definition truthy (s : Stored) : bool :=
  match s with
  | Absent | EmptyText => false
  | Json _ | Malformed => true
  end.

Definition JSON_parse (s : Stored) : result (list Movie.t) :=
  match s with
  | Json favorites => Ok favorites
  | _ => Throw
  end.

(** Whether each AsyncStorage call of one handler run rejects. *)
Record Faults : Type := {
  getItem_rejects : bool;
  setItem_rejects : bool
}.

Definition no_fault : Faults :=
  {| getItem_rejects := false; setItem_rejects := false |}.

(** The component's state ([movie], [isFavorite]), the device's storage
    and the console. *)
Record State : Type := {
  movie : option MovieDetails.t;
  isFavorite : bool;
  storage : Stored;
  console : list JS.text
}.

Definition setMovie (m : MovieDetails.t) (s : State) : State :=
  {| movie := Some m; isFavorite := isFavorite s;
     storage := storage s; console := console s |}.

Definition setIsFavorite (b : bool) (s : State) : State :=
  {| movie := movie s; isFavorite := b;
     storage := storage s; console := console s |}.

Definition console_error (msg : JS.text) (s : State) : State :=
  {| movie := movie s; isFavorite := isFavorite s;
     storage := storage s; console := console s ++ [msg] |}.

Definition getItem (f : Faults) (s : State) : result Stored :=
  if getItem_rejects f then Throw else Ok (storage s).

(** A rejected write leaves the entry as it was. *)
Definition setItem (f : Faults) (favorites : list Movie.t) (s : State)
  : result State :=
  if setItem_rejects f then Throw
  else Ok {| movie := movie s; isFavorite := isFavorite s;
             storage := Json favorites; console := console s |}.

(** [fav.imdbID === movieId] *)
Definition sameId (movieId : JS.text) (fav : Movie.t) : bool :=
  JS.eqb (Movie.imdbID fav) movieId.

(** [fav.imdbID !== movieId], the callback of [filter]. *)
Definition others (movieId : JS.text) (fav : Movie.t) : bool :=
  negb (sameId movieId fav).

(** The object literal pushed by [toggleFavorite]. *)
Definition summary (m : MovieDetails.t) : Movie.t :=
  {| Movie.imdbID := MovieDetails.imdbID m;
     Movie.Title := MovieDetails.Title m;
     Movie.Year := MovieDetails.Year m;
     Movie.Poster := MovieDetails.Poster m |}.

(** The [try] block of [checkIfFavorite]. *)
Definition checkIfFavorite_try (f : Faults) (movieId : JS.text) (s : State)
  : result State :=
  storedFavorites <- getItem f s ;;
  if truthy storedFavorites then
    favorites <- JSON_parse storedFavorites ;;
    Ok (setIsFavorite (existsb (sameId movieId) favorites) s)
  else Ok s.

Definition checkIfFavorite (f : Faults) (movieId : JS.text) (s : State)
  : State :=
  match checkIfFavorite_try f movieId s with
  | Ok s' => s'
  | Throw => console_error (JS.lit "Error checking favorites:") s
  end.

(** The [try] block of [toggleFavorite], for a loaded [movie], as one
    call that runs alone: nothing else happens between its two [await]s.
    [DetailAsync] below cuts the call at them. *)
Definition toggleFavorite_try (f : Faults) (m : MovieDetails.t) (s : State)
  : result State :=
  storedFavorites <- getItem f s ;;
  favorites <- (if truthy storedFavorites then JSON_parse storedFavorites
                else Ok []) ;;
  let favorites :=
    if isFavorite s then
      filter (others (MovieDetails.imdbID m)) favorites
    else favorites ++ [summary m] in
  s' <- setItem f favorites s ;;
  Ok (setIsFavorite (negb (isFavorite s)) s').

Definition toggleFavorite (f : Faults) (s : State) : State :=
  match movie s with
  | None => s
  | Some m =>
      match toggleFavorite_try f m s with
      | Ok s' => s'
      | Throw => console_error (JS.lit "Error updating favorites:") s
      end
  end.

(** The screen as it is right after mounting on movie [m]: [fetchMovie]
    has stored the payload and run [checkIfFavorite] on its id. *)
Definition initial (st : Stored) : State :=
  {| movie := None; isFavorite := false; storage := st; console := [] |}.

Definition mounted (f : Faults) (m : MovieDetails.t) (st : Stored) : State :=
  checkIfFavorite f (MovieDetails.imdbID m) (setMovie m (initial st)).

(** The list a reader of the entry shows ([loadFavorites] of the
    favourites screen keeps its empty list when nothing usable is stored). *)
Definition favoritesOf (st : Stored) : list Movie.t :=
  match st with
  | Json favorites => favorites
  | _ => []
  end.

Definition ids (st : Stored) : list JS.text :=
  map Movie.imdbID (favoritesOf st).

(** The flag agrees with the stored list on the loaded movie. *)
Definition flagReflectsStore (s : State) : Prop :=
  match movie s with
  | Some m =>
      isFavorite s
      = existsb (sameId (MovieDetails.imdbID m)) (favoritesOf (storage s))
  | None => True
  end.

End Favorites.

(** ** The detail screen with its calls in flight *)

(** [toggleFavorite] above is one call that runs alone.  The handler is
    [async]: it is suspended at [await getItem] and at [await setItem], the
    heart stays enabled meanwhile, and a call keeps the [movie] and
    [isFavorite] of the render that created it.  Here every call in flight
    is kept with what it has captured, and AsyncStorage serves a call when
    the call settles. *)
Module DetailAsync.

(** A suspended call of [toggleFavorite]: at the first [await] with the
    captured [movie] and [isFavorite], at the second also with the list it
    has handed to [setItem]. *)
Inductive Call : Type :=
| AwaitingGetItem (m : MovieDetails.t) (flag : bool)
| AwaitingSetItem (m : MovieDetails.t) (flag : bool)
    (favorites : list Movie.t).

Record Screen : Type := {
  state : Favorites.State;
  calls : list Call
}.

(** The heart is pressed, or the call at position [i] of the calls in
    flight has its [getItem] or [setItem] settled, rejected or not. *)
Inductive Event : Type :=
| Tap
| GetItemSettled (i : nat) (rejects : bool)
| SetItemSettled (i : nat) (rejects : bool).

Fixpoint removeAt {A : Type} (i : nat) (l : list A) : list A :=
  match l, i with
  | [], _ => []
  | _ :: l', O => l'
  | x :: l', S i' => x :: removeAt i' l'
  end.

Fixpoint replaceAt {A : Type} (i : nat) (y : A) (l : list A) : list A :=
  match l, i with
  | [], _ => []
  | _ :: l', O => y :: l'
  | x :: l', S i' => x :: replaceAt i' y l'
  end.

Definition reading (rejects : bool) : Favorites.Faults :=
  {| Favorites.getItem_rejects := rejects;
     Favorites.setItem_rejects := false |}.

Definition writing (rejects : bool) : Favorites.Faults :=
  {| Favorites.getItem_rejects := false;
     Favorites.setItem_rejects := rejects |}.

(** From the settlement of [getItem] to the call of [setItem]. *)
Definition afterGetItem (rejects : bool) (m : MovieDetails.t) (flag : bool)
  (s : Favorites.State) : result (list Movie.t) :=
  storedFavorites <- Favorites.getItem (reading rejects) s ;;
  favorites <- (if Favorites.truthy storedFavorites
                then Favorites.JSON_parse storedFavorites
                else Ok []) ;;
  Ok (if flag then
        filter (Favorites.others (MovieDetails.imdbID m)) favorites
      else favorites ++ [Favorites.summary m]).

(** From the settlement of [setItem] to the end of the [try] block. *)
Definition afterSetItem (rejects : bool) (flag : bool)
  (favorites : list Movie.t) (s : Favorites.State)
  : result Favorites.State :=
  s' <- Favorites.setItem (writing rejects) favorites s ;;
  Ok (Favorites.setIsFavorite (negb flag) s').

Definition caught (s : Favorites.State) : Favorites.State :=
  Favorites.console_error (JS.lit "Error updating favorites:") s.

Definition step (sc : Screen) (e : Event) : Screen :=
  match e with
  | Tap =>
      match Favorites.movie (state sc) with
      | None => sc
      | Some m =>
          {| state := state sc;
             calls := calls sc
                      ++ [AwaitingGetItem m (Favorites.isFavorite (state sc))] |}
      end
  | GetItemSettled i rejects =>
      match nth_error (calls sc) i with
      | Some (AwaitingGetItem m flag) =>
          match afterGetItem rejects m flag (state sc) with
          | Ok favorites =>
              {| state := state sc;
                 calls := replaceAt i (AwaitingSetItem m flag favorites)
                            (calls sc) |}
          | Throw =>
              {| state := caught (state sc);
                 calls := removeAt i (calls sc) |}
          end
      | _ => sc
      end
  | SetItemSettled i rejects =>
      match nth_error (calls sc) i with
      | Some (AwaitingSetItem m flag favorites) =>
          {| state := match afterSetItem rejects flag favorites (state sc) with
                      | Ok s' => s'
                      | Throw => caught (state sc)
                      end;
             calls := removeAt i (calls sc) |}
      | _ => sc
      end
  end.

Definition run (es : list Event) (sc : Screen) : Screen :=
  fold_left step es sc.

(** One call from the tap to its end, nothing else happening meanwhile. *)
Definition alone (f : Favorites.Faults) : list Event :=
  [Tap; GetItemSettled 0 (Favorites.getItem_rejects f);
   SetItemSettled 0 (Favorites.setItem_rejects f)].

(** Nothing in flight. *)
Definition idle (sc : Screen) : bool :=
  match calls sc with
  | [] => true
  | _ :: _ => false
  end.

(** One toggle that runs alone, started with nothing in flight and with
    the flag reflecting the store. *)
Inductive soloToggle : Favorites.Stored -> Favorites.Stored -> Prop :=
| SoloToggle (f : Favorites.Faults) (sc : Screen) :
    idle sc = true ->
    Favorites.flagReflectsStore (state sc) ->
    soloToggle (Favorites.storage (state sc))
      (Favorites.storage (state (run (alone f) sc))).

(** Any finite sequence of such toggles, each ended before the next. *)
Inductive soloToggles : Favorites.Stored -> Favorites.Stored -> Prop :=
| SoloNone (st : Favorites.Stored) : soloToggles st st
| SoloMore (st st' st'' : Favorites.Stored) :
    soloToggle st st' -> soloToggles st' st'' -> soloToggles st st''.



(** The screen mounted on movie [m], [checkIfFavorite] having read
    without failure. *)
Definition mounted (m : MovieDetails.t) (st : Favorites.Stored) : Screen :=
  {| state := Favorites.mounted Favorites.no_fault m st; calls := [] |}.

End DetailAsync.

(** ** The search screen, [app/(tabs)/index.tsx] *)

Module Search.

Local Open Scope Z_scope.

(** The JSON object of a catalog reply.  [totalResults] is the number the
    catalog's decimal text denotes, which is what [>] compares after its
    coercion; [Error] is absent ([None]) or a text. *)
Module Data.
Record t : Type := Build {
  Response : JS.text;
  Search : list Movie.t;
  totalResults : Z;
  Error : option JS.text
}.
End Data.

(** What [fetch] resolves with: the [ok] flag and the settlement of
    [response.json()]. *)
Record HttpResponse : Type := {
  ok : bool;
  json : result Data.t
}.

(** The settlement of [await fetch(...)]: [Throw] when it rejects. *)
Definition Outcome : Type := result HttpResponse.

(** A call of [searchMovies] suspended at its [await]: the arguments its
    continuation still refers to. *)
Record Request : Type := {
  searchQuery : JS.text;
  pageNum : Z
}.

Definition requestEqb (a b : Request) : bool :=
  JS.eqb (searchQuery a) (searchQuery b) && (pageNum a =? pageNum b).

(** The six [useState] cells, the fetches in flight and the console. *)
Record State : Type := {
  query : JS.text;
  movies : list Movie.t;
  page : Z;
  loading : bool;
  error : option JS.text;
  hasMore : bool;
  pending : list Request;
  console : list JS.text
}.

Definition initial : State :=
  {| query := []; movies := []; page := 1; loading := false;
     error := None; hasMore := true; pending := []; console := [] |}.

Definition setQuery (q : JS.text) (s : State) : State :=
  {| query := q; movies := movies s; page := page s; loading := loading s;
     error := error s; hasMore := hasMore s; pending := pending s;
     console := console s |}.

Definition setMovies (l : list Movie.t) (s : State) : State :=
  {| query := query s; movies := l; page := page s; loading := loading s;
     error := error s; hasMore := hasMore s; pending := pending s;
     console := console s |}.

Definition setPage (p : Z) (s : State) : State :=
  {| query := query s; movies := movies s; page := p; loading := loading s;
     error := error s; hasMore := hasMore s; pending := pending s;
     console := console s |}.

Definition setLoading (b : bool) (s : State) : State :=
  {| query := query s; movies := movies s; page := page s; loading := b;
     error := error s; hasMore := hasMore s; pending := pending s;
     console := console s |}.

Definition setError (e : option JS.text) (s : State) : State :=
  {| query := query s; movies := movies s; page := page s;
     loading := loading s; error := e; hasMore := hasMore s;
     pending := pending s; console := console s |}.

Definition setHasMore (b : bool) (s : State) : State :=
  {| query := query s; movies := movies s; page := page s;
     loading := loading s; error := error s; hasMore := b;
     pending := pending s; console := console s |}.

Definition setPending (l : list Request) (s : State) : State :=
  {| query := query s; movies := movies s; page := page s;
     loading := loading s; error := error s; hasMore := hasMore s;
     pending := l; console := console s |}.

Definition console_error (msg : JS.text) (s : State) : State :=
  {| query := query s; movies := movies s; page := page s;
     loading := loading s; error := error s; hasMore := hasMore s;
     pending := pending s; console := console s ++ [msg] |}.

Definition failedToFetch : JS.text :=
  JS.lit "Failed to fetch movies. Please try again.".

(** [catch] then [finally] of [searchMovies]. *)
Definition catch_finally (s : State) (r : result State) : State :=
  setLoading false
    match r with
    | Ok s' => s'
    | Throw =>
        console_error (JS.lit "Error fetching movies:")
          (setError (Some failedToFetch) s)
    end.

(** [!searchQuery.trim()] *)
Definition blank (searchQuery : JS.text) : bool :=
  negb (JS.truthy (JS.trim searchQuery)).

(** [searchMovies] up to its first [await]: the blank guard, the two
    setters, and the call of [fetch], whose URL is built with
    [encodeURIComponent]; when that raises, [catch] and [finally] run at
    once and nothing is fetched. *)
Definition searchMovies (searchQuery : JS.text) (pageNum : Z) (s : State)
  : State :=
  if blank searchQuery then setError None (setMovies [] s)
  else
    let s1 := setError None (setLoading true s) in
    if JS.encodable searchQuery then
      setPending
        (pending s1 ++ [{| searchQuery := searchQuery; pageNum := pageNum |}])
        s1
    else catch_finally s1 Throw.

(** The rest of the [try] block, run when the fetch of [r] settles
    with [o]. *)
Definition searchMovies_try (r : Request) (o : Outcome) (s : State)
  : result State :=
  response <- o ;;
  if negb (ok response) then Throw
  else
    data <- json response ;;
    if JS.eqb (Data.Response data) (JS.lit "True") then
      let s1 :=
        if pageNum r =? 1 then setMovies (Data.Search data) s
        else setMovies (movies s ++ Data.Search data) s in
      Ok (setHasMore (Data.totalResults data >? pageNum r * 10) s1)
    else
      let s1 := if pageNum r =? 1 then setMovies [] s else s in
      let s2 := setHasMore false s1 in
      Ok match Data.Error data with
         | Some e => if JS.truthy e then setError (Some e) s2 else s2
         | None => s2
         end.

Definition searchMovies_settled (r : Request) (o : Outcome) (s : State)
  : State :=
  catch_finally s (searchMovies_try r o s).

Definition handleSearch (s : State) : State :=
  searchMovies (query s) 1 (setMovies [] (setPage 1 s)).

Definition loadMore (s : State) : State :=
  if negb (loading s) && hasMore s then
    let nextPage := page s + 1 in
    searchMovies (query s) nextPage (setPage nextPage s)
  else s.

(** Removal of the first occurrence of a settled request. *)
Fixpoint settle (r : Request) (l : list Request) : list Request :=
  match l with
  | [] => []
  | r' :: l' => if requestEqb r r' then l' else r' :: settle r l'
  end.

(** What can happen to the screen: the text box changes, the query is
    submitted (keyboard or button), the list reaches its end, or a fetch
    in flight settles.  Each handler sees the state left by the events
    before it. *)
Inductive Event : Type :=
| ChangeText (text : JS.text)
| Submit
| EndReached
| Settled (r : Request) (o : Outcome).

Definition step (s : State) (e : Event) : State :=
  match e with
  | ChangeText text => setQuery text s
  | Submit => handleSearch s
  | EndReached => loadMore s
  | Settled r o =>
      if existsb (requestEqb r) (pending s) then
        searchMovies_settled r o (setPending (settle r (pending s)) s)
      else s
  end.

Definition run (es : list Event) (s : State) : State := fold_left step es s.

(** Replies of the catalog. *)
Definition foundData (results : list Movie.t) (total : Z) : Data.t :=
  {| Data.Response := JS.lit "True";
     Data.Search := results;
     Data.totalResults := total;
     Data.Error := None |}.

Definition notFoundData (message : option JS.text) : Data.t :=
  {| Data.Response := JS.lit "False";
     Data.Search := [];
     Data.totalResults := 0;
     Data.Error := message |}.

Definition replyWith (data : Data.t) : HttpResponse :=
  {| ok := true; json := Ok data |}.

Definition found (results : list Movie.t) (total : Z) : Outcome :=
  Ok (replyWith (foundData results total)).

Definition notFound (message : option JS.text) : Outcome :=
  Ok (replyWith (notFoundData message)).

(** The settlements that end in [catch]: [fetch] rejects, the status is
    not 2xx, or the body is not JSON. *)
Definition networkError (o : Outcome) : bool :=
  match o with
  | Throw => true
  | Ok response =>
      negb (ok response)
      || match json response with Throw => true | Ok _ => false end
  end.

End Search.

(** ** The favourites screen, [app/(tabs)/favorites.tsx] *)

Module FavoritesScreen.

(** The two [useState] cells, the device's storage and the console. *)
Record State : Type := {
  favorites : list Movie.t;
  loading : bool;
  storage : Favorites.Stored;
  console : list JS.text
}.

Definition initial (st : Favorites.Stored) : State :=
  {| favorites := []; loading := true; storage := st; console := [] |}.

Definition setFavorites (l : list Movie.t) (s : State) : State :=
  {| favorites := l; loading := loading s;
     storage := storage s; console := console s |}.

Definition setLoading (b : bool) (s : State) : State :=
  {| favorites := favorites s; loading := b;
     storage := storage s; console := console s |}.

Definition console_error (msg : JS.text) (s : State) : State :=
  {| favorites := favorites s; loading := loading s;
     storage := storage s; console := console s ++ [msg] |}.

Definition getItem (f : Favorites.Faults) (s : State)
  : result Favorites.Stored :=
  if Favorites.getItem_rejects f then Throw else Ok (storage s).

(** The [try] block of [loadFavorites].  [Favorites.Malformed] is read here
    as a text on which [JSON.parse] raises; a text that parses to something
    that is not an array would be handed to [setFavorites] as it is, and
    the properties of this screen leave that entry out. *)
Definition loadFavorites_try (f : Favorites.Faults) (s : State)
  : result State :=
  storedFavorites <- getItem f s ;;
  if Favorites.truthy storedFavorites then
    parsed <- Favorites.JSON_parse storedFavorites ;;
    Ok (setFavorites parsed s)
  else Ok s.

(** [try], [catch] and [finally] of [loadFavorites]. *)
Definition loadFavorites (f : Favorites.Faults) (s : State) : State :=
  setLoading false
    match loadFavorites_try f s with
    | Ok s' => s'
    | Throw => console_error (JS.lit "Error loading favorites:") s
    end.

(** The effect that runs [loadFavorites] once, when the screen mounts. *)
Definition mounted (f : Favorites.Faults) (st : Favorites.Stored) : State :=
  loadFavorites f (initial st).

(** What the component returns: the spinner while loading, the empty state
    when [favorites.length === 0], the list otherwise. *)
Inductive View : Type :=
| Spinner
| EmptyState
| Listed (items : list Movie.t).

Definition render (s : State) : View :=
  if loading s then Spinner
  else if (List.length (favorites s) =? 0)%nat then EmptyState
       else Listed (favorites s).

End FavoritesScreen.

(** ** What the search screen shows *)

Module SearchView.

(** [{error && ...}]: the banner is there when [error] is truthy. *)
Definition showsError (s : Search.State) : bool :=
  match Search.error s with
  | Some e => JS.truthy e
  | None => false
  end.

(** The [ListEmptyComponent] prop: [!loading && !error && query]. *)
Definition ListEmptyComponent (s : Search.State) : bool :=
  negb (Search.loading s) && negb (showsError s)
  && JS.truthy (Search.query s).

(** The list renders its empty component only when [data] is empty. *)
Definition showsNoMoviesFound (s : Search.State) : bool :=
  match Search.movies s with
  | [] => ListEmptyComponent s
  | _ :: _ => false
  end.

(** The [ListFooterComponent] prop: the spinner while [loading]. *)
Definition showsSpinner (s : Search.State) : bool := Search.loading s.

End SearchView.

(** ** Sample data *)

Module Samples.

Definition details (id title year : string) : MovieDetails.t :=
  {| MovieDetails.Title := JS.lit title;
     MovieDetails.Year := JS.lit year;
     MovieDetails.Rated := JS.lit "PG";
     MovieDetails.Runtime := JS.lit "100 min";
     MovieDetails.Genre := JS.lit "Drama";
     MovieDetails.Director := JS.lit "N/A";
     MovieDetails.Actors := JS.lit "N/A";
     MovieDetails.Plot := JS.lit "N/A";
     MovieDetails.Poster := JS.lit "unavailable";
     MovieDetails.imdbRating := JS.lit "7.0";
     MovieDetails.imdbID := JS.lit id |}.

Definition entry (id title year : string) : Movie.t :=
  Favorites.summary (details id title year).

Definition detailsX : MovieDetails.t := details "tt001" "X" "2000".
Definition movieX : Movie.t := entry "tt001" "X" "2000".
Definition movieY : Movie.t := entry "tt002" "Y" "2001".

(** The detail screen of movie X with its flag, over a stored list. *)
Definition onX (flag : bool) (favorites : list Movie.t) : Favorites.State :=
  {| Favorites.movie := Some detailsX;
     Favorites.isFavorite := flag;
     Favorites.storage := Favorites.Json favorites;
     Favorites.console := [] |}.

Definition batman : JS.text := JS.lit "batman".

Definition request (q : JS.text) (p : Z) : Search.Request :=
  {| Search.searchQuery := q; Search.pageNum := p |}.

(** Five results of a page. *)
Definition fiveFrom (n : string) : list Movie.t :=
  [entry (n ++ "1") "Batman" "1989"; entry (n ++ "2") "Batman Returns" "1992";
   entry (n ++ "3") "Batman Forever" "1995"; entry (n ++ "4") "Batman" "1966";
   entry (n ++ "5") "Batman Begins" "2005"].

(** "a" is submitted, then "b"; the reply for "b" arrives first and the
    reply for "a" after it. *)
Definition staleReply : Search.State :=
  Search.run
    [Search.ChangeText (JS.lit "a"); Search.Submit;
     Search.ChangeText (JS.lit "b"); Search.Submit;
     Search.Settled (request (JS.lit "b") 1) (Search.found [movieY] 1);
     Search.Settled (request (JS.lit "a") 1) (Search.found [movieX] 1)]
    Search.initial.

(** "batman" is typed, submitted, and its first page arrives. *)
Definition batmanPage1 : Search.State :=
  Search.run
    [Search.ChangeText batman; Search.Submit;
     Search.Settled (request batman 1) (Search.found (fiveFrom "tt01") 23)]
    Search.initial.

(** Then the text box is cleared and the list is scrolled to its end. *)
Definition clearedThenScrolled : Search.State :=
  Search.run [Search.ChangeText []; Search.EndReached] batmanPage1.

(** A query without results: the catalog answers with its message. *)
Definition nothingFound : Search.State :=
  Search.run
    [Search.ChangeText (JS.lit "zzzz"); Search.Submit;
     Search.Settled (request (JS.lit "zzzz") 1)
       (Search.notFound (Some (JS.lit "Movie not found!")))]
    Search.initial.

(** The first page of "batman" is shown and the text box then holds "b"
    followed by a lone high surrogate. *)
Definition loneSurrogate : Search.State :=
  Search.setQuery [98; 55357]%N batmanPage1.

(** The detail screen of movie X, not a favourite, over a stored list
    that holds Y, nothing in flight. *)
Definition idleOnX : DetailAsync.Screen :=
  {| DetailAsync.state := onX false [movieY]; DetailAsync.calls := [] |}.

(** The heart is pressed and the call has read the list and handed its
    new list to [setItem]. *)
Definition firstWriting : DetailAsync.Screen :=
  DetailAsync.run
    [DetailAsync.Tap; DetailAsync.GetItemSettled 0 false] idleOnX.

(** The heart is pressed again before that write has settled; the write
    settles, then the second call reads and writes. *)
Definition doubleTap : DetailAsync.Screen :=
  DetailAsync.run
    [DetailAsync.Tap; DetailAsync.SetItemSettled 0 false;
     DetailAsync.GetItemSettled 0 false; DetailAsync.SetItemSettled 0 false]
    firstWriting.

(** "a" is submitted, then "b". *)
Definition bothSubmitted : Search.State :=
  Search.run
    [Search.ChangeText (JS.lit "a"); Search.Submit;
     Search.ChangeText (JS.lit "b"); Search.Submit]
    Search.initial.

(** Then the reply for "a" arrives, and the fetch for "b" fails. *)
Definition failedAfterReply : Search.State :=
  Search.run
    [Search.Settled (request (JS.lit "a") 1) (Search.found [movieX] 1);
     Search.Settled (request (JS.lit "b") 1) Throw]
    bothSubmitted.

End Samples.

(** * Properties *)

(** ** Texts *)

Lemma JS_eqb_eq (a b : JS.text) : JS.eqb a b = true <-> a = b.
Proof.
  revert b; induction a as [|x a IH]; intros [|y b]; simpl;
    try (split; [discriminate | congruence]); try tauto.
  rewrite andb_true_iff, N.eqb_eq, IH.
  split; [intros [-> ->]; reflexivity | intros H; inversion H; auto].
Qed.

Lemma JS_eqb_refl (a : JS.text) : JS.eqb a a = true.
Proof. apply JS_eqb_eq; reflexivity. Qed.

Lemma JS_eqb_neq (a b : JS.text) : JS.eqb a b = false <-> a <> b.
Proof.
  rewrite <- JS_eqb_eq. destruct (JS.eqb a b); split; congruence.
Qed.

Lemma trimStart_nil (a : JS.text) :
  JS.trimStart a = [] <-> forallb JS.isWhiteSpace a = true.
Proof.
  induction a as [|c a IH]; simpl; [tauto|].
  destruct (JS.isWhiteSpace c); simpl; [exact IH|].
  split; discriminate.
Qed.

Lemma trimStart_head (a : JS.text) (c : N) (r : JS.text) :
  JS.trimStart a = c :: r -> JS.isWhiteSpace c = false.
Proof.
  induction a as [|x a IH]; simpl; [discriminate|].
  destruct (JS.isWhiteSpace x) eqn:E; [exact IH|].
  intros H; inversion H; subst; exact E.
Qed.

Lemma forallb_rev {A : Type} (p : A -> bool) (l : list A) :
  forallb p (rev l) = forallb p l.
Proof.
  induction l as [|x l IH]; simpl; [reflexivity|].
  rewrite forallb_app, IH; simpl. rewrite andb_true_r. apply andb_comm.
Qed.

Example trim_batman :
  JS.trim (JS.lit "  batman begins ") = JS.lit "batman begins".
Proof. reflexivity. Qed.

Example trim_spaces : JS.trim [32; 9; 10; 160; 8195; 65279]%N = [].
Proof. reflexivity. Qed.

Example encodable_pair : JS.encodable [98; 55357; 56832]%N = true.
Proof. reflexivity. Qed.

Example encodable_lone : JS.encodable [98; 55357]%N = false.
Proof. reflexivity. Qed.

(** [trim] leaves the empty string exactly on the strings made of
    white space only. *)
Lemma trim_nil (a : JS.text) :
  JS.trim a = [] <-> forallb JS.isWhiteSpace a = true.
Proof.
  unfold JS.trim, JS.trimEnd.
  destruct (JS.trimStart a) as [|c r] eqn:E.
  - simpl. rewrite <- trimStart_nil. tauto.
  - pose proof (trimStart_head a E) as Hc.
    assert (Hno : forallb JS.isWhiteSpace a = false).
    { destruct (forallb JS.isWhiteSpace a) eqn:F; [|reflexivity].
      apply trimStart_nil in F; congruence. }
    rewrite Hno. split; [|discriminate].
    intros H. apply (f_equal (@rev N)) in H. rewrite rev_involutive in H.
    change (rev []) with (@nil N) in H. apply trimStart_nil in H.
    rewrite forallb_rev in H. simpl in H. rewrite Hc in H. discriminate.
Qed.

Lemma blank_whitespace (q : JS.text) :
  Search.blank q = true <-> forallb JS.isWhiteSpace q = true.
Proof.
  unfold Search.blank. rewrite <- trim_nil.
  destruct (JS.trim q); simpl; split; congruence.
Qed.

(** ** The favourite toggle *)

Module FavoritesFacts.

Import Favorites.

Lemma sameId_summary (m : MovieDetails.t) :
  sameId (MovieDetails.imdbID m) (summary m) = true.
Proof. unfold sameId; simpl. apply JS_eqb_refl. Qed.

(** A toggle that meets no failure writes the new list and flips the flag. *)
Lemma toggleFavorite_done (f : Faults) (s : State) (m : MovieDetails.t) :
  movie s = Some m ->
  getItem_rejects f = false -> setItem_rejects f = false ->
  storage s <> Malformed ->
  toggleFavorite f s
  = {| movie := Some m; isFavorite := negb (isFavorite s);
       storage :=
         Json (if isFavorite s then
                 filter (others (MovieDetails.imdbID m))
                   (favoritesOf (storage s))
               else favoritesOf (storage s) ++ [summary m]);
       console := console s |}.
Proof.
  intros Hm Hg Hs Hst.
  unfold toggleFavorite, toggleFavorite_try, getItem, setItem.
  rewrite Hm, Hg, Hs.
  destruct (storage s) eqn:E; try congruence; simpl;
    unfold setIsFavorite; simpl; try rewrite Hm; destruct (isFavorite s);
    reflexivity.
Qed.

(** A toggle that meets a failure only writes to the console. *)
Lemma toggleFavorite_failed (f : Faults) (s : State) (m : MovieDetails.t) :
  movie s = Some m ->
  getItem_rejects f = true \/ storage s = Malformed
  \/ setItem_rejects f = true ->
  toggleFavorite f s = console_error (JS.lit "Error updating favorites:") s.
Proof.
  intros Hm H.
  unfold toggleFavorite, toggleFavorite_try, getItem, setItem.
  rewrite Hm.
  destruct (getItem_rejects f) eqn:Hg; simpl; [reflexivity|].
  destruct H as [H | [H | H]]; [discriminate | |].
  - rewrite H; reflexivity.
  - rewrite H. destruct (storage s); reflexivity.
Qed.

Lemma filter_others_absent (id : JS.text) (l : list Movie.t) :
  existsb (sameId id) l = false -> filter (others id) l = l.
Proof.
  induction l as [|x l IH]; simpl; [reflexivity|].
  rewrite orb_false_iff. intros [Hx Hl].
  unfold others at 1. rewrite Hx; simpl. f_equal; auto.
Qed.

Lemma filter_others_idem (id : JS.text) (l : list Movie.t) :
  filter (others id) (filter (others id) l) = filter (others id) l.
Proof.
  induction l as [|x l IH]; simpl; [reflexivity|].
  destruct (others id x) eqn:E; simpl; [rewrite E, IH|]; auto.
Qed.

Lemma filter_others_clears (id : JS.text) (l : list Movie.t) :
  existsb (sameId id) (filter (others id) l) = false.
Proof.
  induction l as [|x l IH]; simpl; [reflexivity|].
  unfold others at 1. destruct (sameId id x) eqn:E; simpl; [exact IH|].
  rewrite E; exact IH.
Qed.

Lemma existsb_sameId_In (id : JS.text) (l : list Movie.t) :
  existsb (sameId id) l = true <-> In id (map Movie.imdbID l).
Proof.
  rewrite existsb_exists, in_map_iff. unfold sameId.
  split; intros [x [H1 H2]]; exists x.
  - apply JS_eqb_eq in H2. auto.
  - split; [tauto|]. apply JS_eqb_eq. tauto.
Qed.

Lemma NoDup_ids_filter (p : Movie.t -> bool) (l : list Movie.t) :
  NoDup (map Movie.imdbID l) -> NoDup (map Movie.imdbID (filter p l)).
Proof.
  induction l as [|x l IH]; simpl; [auto|].
  intros H; inversion H as [|? ? Hx Hl]; subst.
  destruct (p x); simpl; [|auto].
  constructor; [|auto].
  rewrite in_map_iff in *. intros [y [Hy Hin]]. apply Hx.
  exists y. apply filter_In in Hin. tauto.
Qed.

Lemma NoDup_ids_push (x : Movie.t) (l : list Movie.t) :
  NoDup (map Movie.imdbID l) ->
  existsb (sameId (Movie.imdbID x)) l = false ->
  NoDup (map Movie.imdbID (l ++ [x])).
Proof.
  intros Hl Hx. rewrite map_app; simpl.
  assert (Hnot : ~ In (Movie.imdbID x) (map Movie.imdbID l)).
  { rewrite <- existsb_sameId_In. congruence. }
  clear Hx. induction (map Movie.imdbID l) as [|y ys IH]; simpl.
  - constructor; [intros []| constructor].
  - inversion Hl as [|? ? Hy Hys]; subst.
    constructor.
    + rewrite in_app_iff; simpl. intros [H | [H | []]]; [tauto|].
      apply Hnot; left; congruence.
    + apply IH; [assumption|]. intros H; apply Hnot; right; exact H.
Qed.



Lemma toggle_keeps_ids_unique (f : Faults) (s : State) :
  flagReflectsStore s -> NoDup (ids (storage s)) ->
  NoDup (ids (storage (toggleFavorite f s))).
Proof.
  intros Hflag Hnd. unfold flagReflectsStore in Hflag.
  destruct (movie s) as [m|] eqn:Hm;
    [|unfold toggleFavorite; rewrite Hm; exact Hnd].
  destruct (getItem_rejects f) eqn:Hg;
    [rewrite (toggleFavorite_failed f s Hm) by tauto; exact Hnd|].
  destruct (setItem_rejects f) eqn:Hs;
    [rewrite (toggleFavorite_failed f s Hm) by tauto; exact Hnd|].
  destruct (storage s) eqn:Hst; simpl in Hflag;
    try (rewrite (toggleFavorite_done f s Hm Hg Hs) by congruence;
         rewrite Hst, Hflag; simpl; repeat constructor; intros []).
  - rewrite (toggleFavorite_done f s Hm Hg Hs) by congruence.
    rewrite Hst. unfold ids in *; simpl in *.
    destruct (isFavorite s).
    + apply NoDup_ids_filter; exact Hnd.
    + apply NoDup_ids_push; [exact Hnd | symmetry; exact Hflag].
  - rewrite (toggleFavorite_failed f s Hm) by tauto. simpl.
    rewrite Hst; exact Hnd.
Qed.

(** C1, as stated, fails: with X and Y stored in that order and X shown
    as a favourite, two toggles of X leave Y before X. *)
Lemma toggle_twice_reorders :
  flagReflectsStore (Samples.onX true [Samples.movieX; Samples.movieY])
  /\ favoritesOf
       (storage
          (toggleFavorite no_fault
             (toggleFavorite no_fault
                (Samples.onX true [Samples.movieX; Samples.movieY]))))
     = [Samples.movieY; Samples.movieX]
  /\ favoritesOf
       (storage
          (toggleFavorite no_fault
             (toggleFavorite no_fault
                (Samples.onX true [Samples.movieX; Samples.movieY]))))
     <> favoritesOf
          (storage (Samples.onX true [Samples.movieX; Samples.movieY])).
Proof.
  split; [reflexivity|]. split; [reflexivity|].
  vm_compute. intros H. inversion H.
Qed.

(** C1, amended: with the flag reflecting the stored list and no storage
    failure, two toggles of movie [m] restore the flag; they restore the
    list exactly when [m] was not a favourite; when it was, the entries
    of other ids keep their order and the entries of [m]'s id are replaced
    by one summary of [m] at the end. *)
Theorem toggle_twice (s : State) (m : MovieDetails.t) :
  movie s = Some m ->
  flagReflectsStore s ->
  storage s <> Malformed ->
  let l := favoritesOf (storage s) in
  let s2 := toggleFavorite no_fault (toggleFavorite no_fault s) in
  isFavorite s2 = isFavorite s
  /\ (isFavorite s = false -> favoritesOf (storage s2) = l)
  /\ (isFavorite s = true ->
      favoritesOf (storage s2)
      = filter (others (MovieDetails.imdbID m)) l ++ [summary m])
  /\ filter (others (MovieDetails.imdbID m)) (favoritesOf (storage s2))
     = filter (others (MovieDetails.imdbID m)) l.
Proof.
  intros Hm Hflag Hst l s2. subst l s2.
  unfold flagReflectsStore in Hflag. rewrite Hm in Hflag.
  rewrite (toggleFavorite_done no_fault s Hm eq_refl eq_refl Hst).
  rewrite (@toggleFavorite_done no_fault _ m)
    by (simpl; first [reflexivity | discriminate]).
  simpl. rewrite negb_involutive.
  set (l := favoritesOf (storage s)) in *.
  set (id := MovieDetails.imdbID m) in *.
  assert (Hsum : others id (summary m) = false).
  { unfold others, id. rewrite sameId_summary. reflexivity. }
  split; [reflexivity|].
  destruct (isFavorite s); simpl.
  - split; [discriminate|]. split; [reflexivity|].
    rewrite filter_app; simpl. rewrite Hsum, app_nil_r.
    apply filter_others_idem.
  - symmetry in Hflag.
    split; [intros _|split; [discriminate|]].
    + rewrite filter_app; simpl. rewrite Hsum, app_nil_r.
      apply filter_others_absent; exact Hflag.
    + rewrite filter_others_idem, filter_app; simpl.
      rewrite Hsum, app_nil_r. reflexivity.
Qed.

Lemma toggle_twice_witness :
  favoritesOf
    (storage
       (toggleFavorite no_fault
          (toggleFavorite no_fault (Samples.onX false [Samples.movieY]))))
  = [Samples.movieY].
Proof.
  assert (Hst : storage (Samples.onX false [Samples.movieY]) <> Malformed)
    by discriminate.
  exact (proj1 (proj2 (@toggle_twice (Samples.onX false [Samples.movieY])
                         Samples.detailsX eq_refl eq_refl Hst)) eq_refl).
Defined.

(** The scenario of the specification: from an empty list, toggling
    tt001 stores it alone, toggling again stores the empty list. *)
Example toggle_tt001 :
  favoritesOf (storage (toggleFavorite no_fault (Samples.onX false [])))
  = [Samples.movieX]
  /\ favoritesOf
       (storage
          (toggleFavorite no_fault
             (toggleFavorite no_fault (Samples.onX false []))))
     = [].
Proof. split; reflexivity. Qed.

(** C9: when the storage read, the parse or the storage write raises, the
    stored entry, the flag and the movie are as before and the error is
    written to the console; a toggle that flips the flag has read and
    written without failure and left a written list. *)
Theorem toggle_failure_atomic (f : Faults) (s : State) :
  (getItem_rejects f = true \/ storage s = Malformed
   \/ setItem_rejects f = true ->
   storage (toggleFavorite f s) = storage s
   /\ isFavorite (toggleFavorite f s) = isFavorite s
   /\ movie (toggleFavorite f s) = movie s
   /\ (movie s <> None ->
       console (toggleFavorite f s)
       = console s ++ [JS.lit "Error updating favorites:"]))
  /\ (isFavorite (toggleFavorite f s) <> isFavorite s ->
      getItem_rejects f = false /\ setItem_rejects f = false
      /\ exists favorites, storage (toggleFavorite f s) = Json favorites).
Proof.
  destruct (movie s) as [m|] eqn:Hm.
  - split.
    + intros H. rewrite (toggleFavorite_failed f s Hm H). simpl.
      rewrite Hm. repeat split; reflexivity.
    + intros Hflip.
      destruct (getItem_rejects f) eqn:Hg;
        [rewrite (toggleFavorite_failed f s Hm) in Hflip by tauto;
         simpl in Hflip; congruence|].
      destruct (setItem_rejects f) eqn:Hs;
        [rewrite (toggleFavorite_failed f s Hm) in Hflip by tauto;
         simpl in Hflip; congruence|].
      destruct (storage s) eqn:Hst;
        try (rewrite (toggleFavorite_done f s Hm Hg Hs) by congruence;
             simpl; split; [reflexivity|]; split; [reflexivity|];
             eexists; reflexivity).
      rewrite (toggleFavorite_failed f s Hm) in Hflip by tauto.
      simpl in Hflip; congruence.
  - unfold toggleFavorite. rewrite Hm. split.
    + intros _. repeat split; try reflexivity; congruence.
    + congruence.
Qed.

Lemma toggle_failure_atomic_witness :
  storage
    (toggleFavorite {| getItem_rejects := false; setItem_rejects := true |}
       (Samples.onX false [Samples.movieY]))
  = Json [Samples.movieY]
  /\ isFavorite
       (toggleFavorite
          {| getItem_rejects := false; setItem_rejects := true |}
          (Samples.onX false [Samples.movieY]))
     = false.
Proof.
  pose proof
    (proj1 (toggle_failure_atomic
              {| getItem_rejects := false; setItem_rejects := true |}
              (Samples.onX false [Samples.movieY]))
       (or_intror (or_intror eq_refl))) as H.
  split; [exact (proj1 H) | exact (proj1 (proj2 H))].
Defined.

(** C10: a removing toggle (flag set, no failure) writes the stored list
    without any entry of the movie's id, however many entries of that id
    the list held. *)
Theorem toggle_remove_clears_id
  (s : State) (m : MovieDetails.t) (favorites : list Movie.t) :
  movie s = Some m ->
  isFavorite s = true ->
  storage s = Json favorites ->
  storage (toggleFavorite no_fault s)
  = Json (filter (others (MovieDetails.imdbID m)) favorites)
  /\ (forall fav,
        In fav (favoritesOf (storage (toggleFavorite no_fault s))) ->
        Movie.imdbID fav <> MovieDetails.imdbID m)
  /\ existsb (sameId (MovieDetails.imdbID m))
       (favoritesOf (storage (toggleFavorite no_fault s)))
     = false.
Proof.
  intros Hm Hflag Hst.
  rewrite (toggleFavorite_done no_fault s Hm eq_refl eq_refl)
    by congruence.
  rewrite Hflag, Hst; simpl.
  split; [reflexivity|]. split; [|apply filter_others_clears].
  intros fav Hin. apply filter_In in Hin. destruct Hin as [_ Hfav].
  unfold others, sameId in Hfav. apply negb_true_iff in Hfav.
  apply JS_eqb_neq; exact Hfav.
Qed.

Lemma toggle_remove_clears_id_witness :
  storage
    (toggleFavorite no_fault
       (Samples.onX true [Samples.movieX; Samples.movieY; Samples.movieX]))
  = Json [Samples.movieY].
Proof.
  exact (proj1 (@toggle_remove_clears_id
                  (Samples.onX true
                     [Samples.movieX; Samples.movieY; Samples.movieX])
                  Samples.detailsX _ eq_refl eq_refl eq_refl)).
Defined.

End FavoritesFacts.

(** ** The search session *)

Module SearchFacts.

Import Search.
Local Open Scope Z_scope.

Lemma requestEqb_eq (a b : Request) : requestEqb a b = true <-> a = b.
Proof.
  unfold requestEqb. rewrite andb_true_iff, JS_eqb_eq, Z.eqb_eq.
  destruct a, b; simpl. split; [intros [-> ->]; reflexivity|].
  intros H; inversion H; auto.
Qed.

Lemma requestEqb_refl (a : Request) : requestEqb a a = true.
Proof. apply requestEqb_eq; reflexivity. Qed.

(** With a query that is not blank and that can be encoded,
    [searchMovies] raises the loading flag, clears the error and leaves
    one more fetch in flight. *)
Lemma searchMovies_fetches (q : JS.text) (p : Z) (s : State) :
  blank q = false -> JS.encodable q = true ->
  searchMovies q p s
  = {| query := query s; movies := movies s; page := page s;
       loading := true; error := None; hasMore := hasMore s;
       pending := pending s ++ [{| searchQuery := q; pageNum := p |}];
       console := console s |}.
Proof.
  intros Hb He. unfold searchMovies. rewrite Hb, He. reflexivity.
Qed.

(** A reply with [Response] ['True']. *)
Lemma settled_found (r : Request) (response : HttpResponse) (data : Data.t)
  (s : State) :
  ok response = true -> json response = Ok data ->
  JS.eqb (Data.Response data) (JS.lit "True") = true ->
  searchMovies_settled r (Ok response) s
  = {| query := query s;
       movies := if pageNum r =? 1 then Data.Search data
                 else movies s ++ Data.Search data;
       page := page s; loading := false; error := error s;
       hasMore := Data.totalResults data >? pageNum r * 10;
       pending := pending s; console := console s |}.
Proof.
  intros Hok Hjson Htrue.
  unfold searchMovies_settled, searchMovies_try, bind.
  rewrite Hok, Hjson, Htrue; cbn [negb].
  destruct (pageNum r =? 1); reflexivity.
Qed.

(** A reply with another [Response]. *)
Lemma settled_notFound (r : Request) (response : HttpResponse)
  (data : Data.t) (s : State) :
  ok response = true -> json response = Ok data ->
  JS.eqb (Data.Response data) (JS.lit "True") = false ->
  searchMovies_settled r (Ok response) s
  = {| query := query s;
       movies := if pageNum r =? 1 then [] else movies s;
       page := page s; loading := false;
       error := match Data.Error data with
                | Some e => if JS.truthy e then Some e else error s
                | None => error s
                end;
       hasMore := false;
       pending := pending s; console := console s |}.
Proof.
  intros Hok Hjson Htrue.
  unfold searchMovies_settled, searchMovies_try, bind.
  rewrite Hok, Hjson, Htrue; cbn [negb].
  destruct (pageNum r =? 1), (Data.Error data) as [e|];
    try destruct (JS.truthy e); reflexivity.
Qed.

(** A settlement that ends in [catch]. *)
Lemma settled_networkError (r : Request) (o : Outcome) (s : State) :
  networkError o = true ->
  searchMovies_settled r o s
  = {| query := query s; movies := movies s; page := page s;
       loading := false; error := Some failedToFetch;
       hasMore := hasMore s; pending := pending s;
       console := console s ++ [JS.lit "Error fetching movies:"] |}.
Proof.
  unfold networkError, searchMovies_settled, searchMovies_try.
  destruct o as [response|]; simpl; [|reflexivity].
  destruct (ok response); simpl; [|reflexivity].
  destruct (json response); simpl; [discriminate | reflexivity].
Qed.

(** X8: the page never goes below 1, whatever events follow. *)
Lemma page_positive (es : list Event) (s : State) :
  1 <= page s -> 1 <= page (run es s).
Proof.
  revert s. unfold run.
  induction es as [|e es IH]; simpl; intros s Hs; [exact Hs|].
  apply IH. destruct e; simpl.
  - exact Hs.
  - unfold handleSearch, searchMovies, catch_finally.
    destruct (blank _); [simpl; lia|].
    destruct (JS.encodable _); simpl; lia.
  - unfold loadMore, searchMovies, catch_finally.
    destruct (negb (loading s) && hasMore s);
      [|exact Hs].
    destruct (blank _); [simpl; lia|].
    destruct (JS.encodable _); simpl; lia.
  - destruct (existsb _ _); [|exact Hs].
    unfold searchMovies_settled, searchMovies_try, catch_finally.
    destruct o as [response|]; simpl; [|exact Hs].
    destruct (ok response); simpl; [|exact Hs].
    destruct (json response) as [data|]; simpl; [|exact Hs].
    destruct (JS.eqb _ _), (pageNum r =? 1); simpl; try exact Hs;
      destruct (Data.Error data) as [e|]; simpl; try exact Hs;
      destruct (JS.truthy e); simpl; exact Hs.
Qed.

Lemma settled_found_reply (r : Request) (results : list Movie.t) (total : Z)
  (s : State) :
  searchMovies_settled r (found results total) s
  = {| query := query s;
       movies := if pageNum r =? 1 then results else movies s ++ results;
       page := page s; loading := false; error := error s;
       hasMore := total >? pageNum r * 10;
       pending := pending s; console := console s |}.
Proof.
  unfold found. erewrite settled_found.
  all: cycle 1. all: reflexivity.
Qed.











(** C4: a successful reply for page [p] sets [hasMore] to
    [totalResults > p * 10]; it is true exactly when the total exceeds
    ten times the page. *)
Theorem hasMore_after_found
  (r : Request) (response : HttpResponse) (data : Data.t) (s : State) :
  existsb (requestEqb r) (pending s) = true ->
  ok response = true -> json response = Ok data ->
  JS.eqb (Data.Response data) (JS.lit "True") = true ->
  hasMore (step s (Settled r (Ok response)))
  = (Data.totalResults data >? pageNum r * 10)
  /\ (hasMore (step s (Settled r (Ok response))) = true
      <-> Data.totalResults data > pageNum r * 10).
Proof.
  intros Hpend Hok Hjson Htrue.
  assert (H : hasMore (step s (Settled r (Ok response)))
              = (Data.totalResults data >? pageNum r * 10)).
  { unfold step. rewrite Hpend.
    rewrite (settled_found r response _ Hok Hjson Htrue). reflexivity. }
  split; [exact H|]. rewrite H. rewrite Z.gtb_ltb, Z.ltb_lt. lia.
Qed.

Lemma hasMore_after_found_witness :
  hasMore
    (step (run [ChangeText Samples.batman; Submit] initial)
       (Settled (Samples.request Samples.batman 1)
          (found (Samples.fiveFrom "tt01") 23)))
  = (23 >? 1 * 10)
  /\ hasMore
       (step (loadMore Samples.batmanPage1)
          (Settled (Samples.request Samples.batman 2)
             (found (Samples.fiveFrom "tt02") 23)))
     = (23 >? 2 * 10).
Proof.
  split.
  - exact (proj1 (@hasMore_after_found
                    (Samples.request Samples.batman 1)
                    (replyWith (foundData (Samples.fiveFrom "tt01") 23))
                    (foundData (Samples.fiveFrom "tt01") 23)
                    (run [ChangeText Samples.batman; Submit] initial)
                    eq_refl eq_refl eq_refl eq_refl)).
  - exact (proj1 (@hasMore_after_found
                    (Samples.request Samples.batman 2)
                    (replyWith (foundData (Samples.fiveFrom "tt02") 23))
                    (foundData (Samples.fiveFrom "tt02") 23)
                    (loadMore Samples.batmanPage1)
                    eq_refl eq_refl eq_refl eq_refl)).
Defined.

(** The pagination scenario of the specification: five results of 23
    leave more pages; scrolling fetches page 2; its five results are
    appended and more pages remain. *)
Example batman_pages :
  List.length (movies Samples.batmanPage1) = 5%nat
  /\ hasMore Samples.batmanPage1 = true
  /\ pending (loadMore Samples.batmanPage1)
     = [Samples.request Samples.batman 2]
  /\ page (loadMore Samples.batmanPage1) = 2
  /\ List.length
       (movies
          (step (loadMore Samples.batmanPage1)
             (Settled (Samples.request Samples.batman 2)
                (found (Samples.fiveFrom "tt02") 23))))
     = 10%nat
  /\ hasMore
       (step (loadMore Samples.batmanPage1)
          (Settled (Samples.request Samples.batman 2)
             (found (Samples.fiveFrom "tt02") 23)))
     = true.
Proof. repeat split. Qed.

(** With a blank query [searchMovies] fetches nothing and empties the
    list. *)
Lemma searchMovies_blank (q : JS.text) (p : Z) (s : State) :
  blank q = true ->
  searchMovies q p s = setError None (setMovies [] s).
Proof. intros Hb. unfold searchMovies. rewrite Hb. reflexivity. Qed.

(** C5, as stated, fails: after the first page of "batman" the text box is
    cleared; the screen is not loading and has more pages, yet reaching
    the end of the list fetches nothing and empties the list of five. *)
Lemma loadMore_blank_query :
  loading (setQuery [] Samples.batmanPage1) = false
  /\ hasMore (setQuery [] Samples.batmanPage1) = true
  /\ List.length (movies (setQuery [] Samples.batmanPage1)) = 5%nat
  /\ page Samples.clearedThenScrolled = 2
  /\ pending Samples.clearedThenScrolled = []
  /\ movies Samples.clearedThenScrolled = [].
Proof. repeat split. Qed.

(** C5, amended: [loadMore] does nothing while loading or without more
    pages; otherwise it adds one to the page and calls [searchMovies] on
    the text of the text box: when that text is blank nothing is fetched
    and the list is emptied; when it is not blank (and can be encoded)
    the next page is fetched, the list is kept, and a successful reply
    appends its results, so the list does not get shorter. *)
Theorem loadMore_pages (s : State) :
  (loading s = true \/ hasMore s = false -> loadMore s = s)
  /\ (loading s = false -> hasMore s = true ->
      page (loadMore s) = page s + 1
      /\ (blank (query s) = true ->
          pending (loadMore s) = pending s /\ movies (loadMore s) = [])
      /\ (blank (query s) = false -> JS.encodable (query s) = true ->
          let r := {| searchQuery := query s; pageNum := page s + 1 |} in
          pending (loadMore s) = pending s ++ [r]
          /\ movies (loadMore s) = movies s
          /\ (1 <= page s ->
              forall (results : list Movie.t) (total : Z) (s' : State),
                existsb (requestEqb r) (pending s') = true ->
                movies (step s' (Settled r (found results total)))
                = movies s' ++ results
                /\ (List.length (movies s')
                    <= List.length
                         (movies (step s' (Settled r (found results total)))))
                   %nat))).
Proof.
  split.
  - intros H. unfold loadMore.
    destruct H as [H | H]; rewrite H;
      [reflexivity | rewrite andb_false_r; reflexivity].
  - intros Hl Hh. unfold loadMore. rewrite Hl, Hh. cbn [negb andb].
    destruct (blank (query s)) eqn:Hb.
    + rewrite searchMovies_blank by exact Hb.
      split; [reflexivity|]. split; [split; reflexivity | discriminate].
    + split; [|split; [discriminate|]].
      * unfold searchMovies. rewrite Hb.
        unfold catch_finally. destruct (JS.encodable (query s)); reflexivity.
      * intros _ He.
        rewrite searchMovies_fetches by assumption.
        set (r := {| searchQuery := query s; pageNum := page s + 1 |}).
        split; [reflexivity|]. split; [reflexivity|].
        intros Hpage results total s' Hpend.
        assert (Hm : movies (step s' (Settled r (found results total)))
                     = movies s' ++ results).
        { unfold step. rewrite Hpend, settled_found_reply.
          cbn [movies setPending pageNum r].
          destruct (page s + 1 =? 1) eqn:E; [|reflexivity].
          apply Z.eqb_eq in E. lia. }
        split; [exact Hm|]. rewrite Hm, length_app. lia.
Qed.

Lemma loadMore_pages_witness :
  pending (loadMore Samples.batmanPage1)
  = [Samples.request Samples.batman 2]
  /\ movies
       (step (loadMore Samples.batmanPage1)
          (Settled (Samples.request Samples.batman 2)
             (found (Samples.fiveFrom "tt02") 23)))
     = Samples.fiveFrom "tt01" ++ Samples.fiveFrom "tt02".
Proof.
  pose proof (proj2 (proj2 (proj2 (loadMore_pages Samples.batmanPage1)
                              eq_refl eq_refl))
                eq_refl eq_refl) as H.
  split; [exact (proj1 H)|].
  refine (proj1 (proj2 (proj2 H) _ (Samples.fiveFrom "tt02") 23
                   (loadMore Samples.batmanPage1) eq_refl)).
  discriminate.
Defined.

(** C6: submitting a text that is empty or made of white space only
    fetches nothing, leaves the list empty and clears the error. *)
Theorem submit_blank (s : State) :
  forallb JS.isWhiteSpace (query s) = true ->
  pending (step s Submit) = pending s
  /\ movies (step s Submit) = []
  /\ error (step s Submit) = None.
Proof.
  intros Hws. apply blank_whitespace in Hws.
  unfold step, handleSearch.
  rewrite searchMovies_blank by exact Hws.
  repeat split.
Qed.

Lemma submit_blank_witness :
  pending (step (setQuery [32; 9; 160]%N Samples.nothingFound) Submit) = []
  /\ movies (step (setQuery [32; 9; 160]%N Samples.nothingFound) Submit) = []
  /\ error (step (setQuery [32; 9; 160]%N Samples.nothingFound) Submit)
     = None.
Proof.
  exact (submit_blank (setQuery [32; 9; 160]%N Samples.nothingFound)
           eq_refl).
Defined.

(** C7, as stated, fails: the catalog's reply to a query without results
    carries a message, and the error state holds that message when the
    reply has been handled. *)
Lemma notFound_sets_error :
  movies Samples.nothingFound = []
  /\ hasMore Samples.nothingFound = false
  /\ error Samples.nothingFound = Some (JS.lit "Movie not found!")
  /\ error Samples.nothingFound <> None.
Proof. repeat split. discriminate. Qed.

(** C7, amended: a reply whose [Response] is not ['True'] empties the list
    when it is for page 1 and keeps it otherwise, sets [hasMore] to false
    and ends loading; the error state becomes the reply's message when it
    has a non-empty one, and stays as it was otherwise. *)
Theorem notFound_reply
  (r : Request) (response : HttpResponse) (data : Data.t) (s : State) :
  existsb (requestEqb r) (pending s) = true ->
  ok response = true -> json response = Ok data ->
  JS.eqb (Data.Response data) (JS.lit "True") = false ->
  movies (step s (Settled r (Ok response)))
  = (if pageNum r =? 1 then [] else movies s)
  /\ hasMore (step s (Settled r (Ok response))) = false
  /\ loading (step s (Settled r (Ok response))) = false
  /\ error (step s (Settled r (Ok response)))
     = match Data.Error data with
       | Some e => if JS.truthy e then Some e else error s
       | None => error s
       end.
Proof.
  intros Hpend Hok Hjson Hfalse. unfold step. rewrite Hpend.
  rewrite (settled_notFound r response _ Hok Hjson Hfalse).
  repeat split.
Qed.

Lemma notFound_reply_witness :
  movies
    (step (loadMore Samples.batmanPage1)
       (Settled (Samples.request Samples.batman 2) (notFound None)))
  = Samples.fiveFrom "tt01"
  /\ hasMore
       (step (loadMore Samples.batmanPage1)
          (Settled (Samples.request Samples.batman 2) (notFound None)))
     = false
  /\ error
       (step (loadMore Samples.batmanPage1)
          (Settled (Samples.request Samples.batman 2) (notFound None)))
     = None.
Proof.
  pose proof (@notFound_reply (Samples.request Samples.batman 2)
                (replyWith (notFoundData None)) (notFoundData None)
                (loadMore Samples.batmanPage1)
                eq_refl eq_refl eq_refl eq_refl) as H.
  split; [exact (proj1 H)|].
  split; [exact (proj1 (proj2 H)) | exact (proj2 (proj2 (proj2 H)))].
Defined.

(** A fetch that is issued changes neither the list nor [hasMore]. *)
Lemma searchMovies_keeps_results (q : JS.text) (p : Z) (s : State) :
  blank q = false ->
  movies (searchMovies q p s) = movies s
  /\ hasMore (searchMovies q p s) = hasMore s.
Proof.
  intros Hb. unfold searchMovies, catch_finally. rewrite Hb.
  destruct (JS.encodable q); split; reflexivity.
Qed.

(** C8, as stated, fails: "a" is submitted, then "b"; when the fetch for
    "b" is issued the list is empty and [hasMore] is true; the reply for
    "a" arrives, then the fetch for "b" fails, and the list and [hasMore]
    are those left by the reply for "a". *)
Lemma failure_after_other_reply :
  pending Samples.bothSubmitted
  = [Samples.request (JS.lit "a") 1; Samples.request (JS.lit "b") 1]
  /\ movies Samples.bothSubmitted = []
  /\ hasMore Samples.bothSubmitted = true
  /\ error Samples.failedAfterReply = Some failedToFetch
  /\ movies Samples.failedAfterReply = [Samples.movieX]
  /\ hasMore Samples.failedAfterReply = false
  /\ movies Samples.failedAfterReply <> movies Samples.bothSubmitted
  /\ hasMore Samples.failedAfterReply <> hasMore Samples.bothSubmitted.
Proof. repeat split; discriminate. Qed.

(** C8, amended: when a fetch in flight fails ([fetch] rejects, the status
    is not 2xx, or the body cannot be read), the error state becomes the
    message "Failed to fetch movies. Please try again.", which the banner
    shows, and the list and [hasMore] are left as they are when the
    failure is handled; these are their values when the fetch was issued
    if the failure is the next thing the screen handles. *)
Theorem networkError_reply (o : Outcome) :
  networkError o = true ->
  (forall (r : Request) (s : State),
      existsb (requestEqb r) (pending s) = true ->
      error (step s (Settled r o))
      = Some (JS.lit "Failed to fetch movies. Please try again.")
      /\ SearchView.showsError (step s (Settled r o)) = true
      /\ movies (step s (Settled r o)) = movies s
      /\ hasMore (step s (Settled r o)) = hasMore s)
  /\ (forall (q : JS.text) (p : Z) (s : State),
         blank q = false -> JS.encodable q = true ->
         movies
           (step (searchMovies q p s)
              (Settled {| searchQuery := q; pageNum := p |} o))
         = movies s
         /\ hasMore
              (step (searchMovies q p s)
                 (Settled {| searchQuery := q; pageNum := p |} o))
            = hasMore s).
Proof.
  intros Hfail. split.
  - intros r s Hpend. unfold step. rewrite Hpend.
    rewrite settled_networkError by exact Hfail.
    repeat split.
  - intros q p s Hb He. rewrite searchMovies_fetches by assumption.
    unfold step. cbn [pending].
    rewrite existsb_app. cbn [existsb].
    rewrite requestEqb_refl, orb_true_r.
    rewrite settled_networkError by exact Hfail.
    split; reflexivity.
Qed.

Lemma networkError_reply_witness :
  error
    (step (loadMore Samples.batmanPage1)
       (Settled (Samples.request Samples.batman 2) Throw))
  = Some (JS.lit "Failed to fetch movies. Please try again.")
  /\ SearchView.showsError
       (step (loadMore Samples.batmanPage1)
          (Settled (Samples.request Samples.batman 2) Throw))
     = true
  /\ movies
       (step (loadMore Samples.batmanPage1)
          (Settled (Samples.request Samples.batman 2) Throw))
     = Samples.fiveFrom "tt01"
  /\ hasMore
       (step (loadMore Samples.batmanPage1)
          (Settled (Samples.request Samples.batman 2) Throw))
     = true.
Proof.
  exact (proj1 (@networkError_reply Throw eq_refl)
           (Samples.request Samples.batman 2)
           (loadMore Samples.batmanPage1) eq_refl).
Defined.

End SearchFacts.

(** ** More on the detail screen *)

Module DetailFacts.

Import Favorites.

Lemma In_snoc_dup {A : Type} (a : A) (l : list A) :
  In a l -> ~ NoDup (l ++ [a]).
Proof.
  induction l as [|x l IH]; simpl; [tauto|].
  intros [-> | Hin] Hnd; inversion Hnd as [|? ? Hx Hl]; subst.
  - apply Hx. apply in_or_app. right. left. reflexivity.
  - exact (IH Hin Hl).
Qed.

Lemma length_filter_others (id : JS.text) (l : list Movie.t) :
  NoDup (map Movie.imdbID l) -> existsb (sameId id) l = true ->
  S (List.length (filter (others id) l)) = List.length l.
Proof.
  induction l as [|x l IH]; simpl; [discriminate|].
  intros Hnd Hex. inversion Hnd as [|? ? Hx Hl]; subst.
  unfold others at 1. destruct (sameId id x) eqn:E; simpl.
  - f_equal. f_equal. apply FavoritesFacts.filter_others_absent.
    destruct (existsb (sameId id) l) eqn:Hl'; [|reflexivity].
    exfalso. apply Hx. apply FavoritesFacts.existsb_sameId_In in Hl'.
    unfold sameId in E. apply JS_eqb_eq in E. rewrite E. exact Hl'.
  - f_equal. apply IH; assumption.
Qed.

(** The screen after a mount whose read of the stored list is rejected. *)
Lemma mounted_read_rejected (m : MovieDetails.t) (st : Stored) :
  mounted {| getItem_rejects := true; setItem_rejects := false |} m st
  = {| movie := Some m; isFavorite := false; storage := st;
       console := [JS.lit "Error checking favorites:"] |}.
Proof. reflexivity. Qed.

(** X3: [toggleFavorite] trusts the flag and does not look the movie up in
    the list it has read.  When the movie is stored but the read of
    [checkIfFavorite] was rejected at mount, the flag is false, and a tap
    appends a second entry of the same id: the stored ids are no longer
    distinct. *)
Theorem stale_flag_duplicates (m : MovieDetails.t) (l : list Movie.t) :
  existsb (sameId (MovieDetails.imdbID m)) l = true ->
  let s :=
    mounted {| getItem_rejects := true; setItem_rejects := false |} m (Json l)
  in
  isFavorite s = false
  /\ storage (toggleFavorite no_fault s) = Json (l ++ [summary m])
  /\ ~ NoDup (ids (storage (toggleFavorite no_fault s))).
Proof.
  intros Hin s. subst s. rewrite mounted_read_rejected.
  rewrite (@FavoritesFacts.toggleFavorite_done no_fault _ m)
    by (simpl; first [reflexivity | discriminate]).
  cbn [isFavorite storage favoritesOf].
  split; [reflexivity|]. split; [reflexivity|].
  unfold ids; cbn [favoritesOf]. rewrite map_app. cbn [map].
  apply In_snoc_dup. apply FavoritesFacts.existsb_sameId_In. exact Hin.
Qed.

Lemma stale_flag_duplicates_witness :
  storage
    (toggleFavorite no_fault
       (mounted {| getItem_rejects := true; setItem_rejects := false |}
          Samples.detailsX (Json [Samples.movieX])))
  = Json [Samples.movieX; Samples.movieX].
Proof.
  exact (proj1 (proj2 (@stale_flag_duplicates Samples.detailsX
                         [Samples.movieX] eq_refl))).
Defined.

(** X2: what a toggle writes is what the next mount reads: after a toggle
    without failure, a screen mounted again on the same movie shows the
    flipped flag. *)
Theorem toggle_then_mount (s : State) (m : MovieDetails.t) :
  movie s = Some m ->
  storage s <> Malformed ->
  isFavorite (mounted no_fault m (storage (toggleFavorite no_fault s)))
  = negb (isFavorite s)
  /\ isFavorite (toggleFavorite no_fault s) = negb (isFavorite s).
Proof.
  intros Hm Hst.
  rewrite (FavoritesFacts.toggleFavorite_done no_fault s Hm eq_refl eq_refl Hst).
  cbn [storage isFavorite]. split; [|reflexivity].
  unfold mounted, checkIfFavorite, checkIfFavorite_try, getItem.
  cbn. destruct (isFavorite s); cbn.
  - apply FavoritesFacts.filter_others_clears.
  - rewrite existsb_app. cbn [existsb].
    rewrite FavoritesFacts.sameId_summary. rewrite orb_true_l, orb_true_r.
    reflexivity.
Qed.

Lemma toggle_then_mount_witness :
  isFavorite
    (mounted no_fault Samples.detailsX
       (storage (toggleFavorite no_fault (Samples.onX false [Samples.movieY]))))
  = true.
Proof.
  assert (H : storage (Samples.onX false [Samples.movieY]) <> Malformed)
    by discriminate.
  exact (proj1 (@toggle_then_mount (Samples.onX false [Samples.movieY])
                  Samples.detailsX eq_refl H)).
Defined.

(** X4: a toggle touches the entries of the shown movie only: the entries
    of every other id, and their order, are the same before and after,
    whatever the flag and whatever fails. *)
Theorem toggle_keeps_other_movies
  (f : Faults) (s : State) (m : MovieDetails.t) :
  movie s = Some m ->
  filter (others (MovieDetails.imdbID m))
    (favoritesOf (storage (toggleFavorite f s)))
  = filter (others (MovieDetails.imdbID m)) (favoritesOf (storage s)).
Proof.
  intros Hm.
  destruct (getItem_rejects f) eqn:Hg;
    [rewrite (FavoritesFacts.toggleFavorite_failed f s Hm) by tauto;
     reflexivity|].
  destruct (setItem_rejects f) eqn:Hs;
    [rewrite (FavoritesFacts.toggleFavorite_failed f s Hm) by tauto;
     reflexivity|].
  assert (Hsum : others (MovieDetails.imdbID m) (summary m) = false).
  { unfold others. rewrite FavoritesFacts.sameId_summary. reflexivity. }
  destruct (storage s) eqn:Hst;
    try (rewrite (FavoritesFacts.toggleFavorite_done f s Hm Hg Hs)
           by congruence;
         rewrite Hst; cbn [storage favoritesOf];
         destruct (isFavorite s);
         [apply FavoritesFacts.filter_others_idem
         | rewrite filter_app; cbn [filter]; rewrite Hsum, app_nil_r;
           reflexivity]).
  rewrite (FavoritesFacts.toggleFavorite_failed f s Hm) by tauto.
  cbn [console_error storage]. rewrite Hst. reflexivity.
Qed.

Lemma toggle_keeps_other_movies_witness :
  filter (others (MovieDetails.imdbID Samples.detailsX))
    (favoritesOf
       (storage
          (toggleFavorite no_fault
             (Samples.onX true [Samples.movieX; Samples.movieY]))))
  = [Samples.movieY].
Proof.
  exact (@toggle_keeps_other_movies no_fault
           (Samples.onX true [Samples.movieX; Samples.movieY])
           Samples.detailsX eq_refl).
Defined.

(** X5: with distinct stored ids and the flag reflecting the store, a
    toggle without failure changes the length of the list by exactly one:
    one entry less when the movie was a favourite, one more otherwise. *)
Theorem toggle_length (s : State) (m : MovieDetails.t) :
  movie s = Some m ->
  flagReflectsStore s ->
  NoDup (ids (storage s)) ->
  storage s <> Malformed ->
  let before := List.length (favoritesOf (storage s)) in
  let after :=
    List.length (favoritesOf (storage (toggleFavorite no_fault s))) in
  if isFavorite s then S after = before else after = S before.
Proof.
  intros Hm Hflag Hnd Hst before after. subst before after.
  unfold flagReflectsStore in Hflag. rewrite Hm in Hflag.
  rewrite (FavoritesFacts.toggleFavorite_done no_fault s Hm eq_refl eq_refl Hst).
  cbn [storage favoritesOf]. destruct (isFavorite s).
  - apply length_filter_others; [exact Hnd | symmetry; exact Hflag].
  - rewrite length_app. cbn [List.length]. apply Nat.add_1_r.
Qed.

Lemma toggle_length_witness :
  S (List.length
       (favoritesOf
          (storage
             (toggleFavorite no_fault
                (Samples.onX true [Samples.movieX; Samples.movieY])))))
  = 2%nat.
Proof.
  assert (Hnd : NoDup (ids (storage
                  (Samples.onX true [Samples.movieX; Samples.movieY])))).
  { constructor.
    - intros [H | []]. discriminate H.
    - constructor; [intros [] | constructor]. }
  assert (Hst : storage (Samples.onX true [Samples.movieX; Samples.movieY])
                <> Malformed) by discriminate.
  exact (@toggle_length (Samples.onX true [Samples.movieX; Samples.movieY])
           Samples.detailsX eq_refl eq_refl Hnd Hst).
Defined.

End DetailFacts.

(** ** The favourites screen *)

Module FavoritesScreenFacts.

Import FavoritesScreen.

(** A mount that reads a stored array shows that array. *)
Lemma mounted_Json (l : list Movie.t) :
  mounted Favorites.no_fault (Favorites.Json l)
  = {| favorites := l; loading := false;
       storage := Favorites.Json l; console := [] |}.
Proof. reflexivity. Qed.

(** X6: the favourites screen lists what the detail screen wrote: mounted
    after a toggle without failure, it holds exactly the list that toggle
    stored, and renders the empty state when that list is empty and the
    list otherwise, never the spinner. *)
Theorem favorites_after_toggle (s : Favorites.State) (m : MovieDetails.t) :
  Favorites.movie s = Some m ->
  Favorites.storage s <> Favorites.Malformed ->
  let written :=
    if Favorites.isFavorite s then
      filter (Favorites.others (MovieDetails.imdbID m))
        (Favorites.favoritesOf (Favorites.storage s))
    else Favorites.favoritesOf (Favorites.storage s) ++ [Favorites.summary m]
  in
  let screen :=
    mounted Favorites.no_fault
      (Favorites.storage (Favorites.toggleFavorite Favorites.no_fault s)) in
  favorites screen = written
  /\ render screen
     = match written with
       | [] => EmptyState
       | _ :: _ => Listed written
       end.
Proof.
  intros Hm Hst written screen. subst screen.
  rewrite (FavoritesFacts.toggleFavorite_done Favorites.no_fault s Hm
             eq_refl eq_refl Hst).
  cbn [Favorites.storage]. fold written. rewrite mounted_Json.
  split; [reflexivity|].
  unfold render; cbn [loading favorites].
  destruct written; reflexivity.
Qed.

Lemma favorites_after_toggle_witness :
  render
    (mounted Favorites.no_fault
       (Favorites.storage
          (Favorites.toggleFavorite Favorites.no_fault
             (Samples.onX true [Samples.movieX]))))
  = EmptyState.
Proof.
  assert (H : Favorites.storage (Samples.onX true [Samples.movieX])
              <> Favorites.Malformed) by discriminate.
  exact (proj2 (@favorites_after_toggle (Samples.onX true [Samples.movieX])
                  Samples.detailsX eq_refl H)).
Defined.

(** X7: when the read of the stored list is rejected at mount, the screen
    stops loading, logs the error and renders the empty state, whatever is
    stored; the stored entry is untouched. *)
Theorem favorites_read_rejected (f : Favorites.Faults) (st : Favorites.Stored) :
  Favorites.getItem_rejects f = true ->
  render (mounted f st) = EmptyState
  /\ favorites (mounted f st) = []
  /\ storage (mounted f st) = st
  /\ console (mounted f st) = [JS.lit "Error loading favorites:"].
Proof.
  intros Hg. unfold mounted, loadFavorites, loadFavorites_try, getItem.
  rewrite Hg. repeat split.
Qed.

Lemma favorites_read_rejected_witness :
  render
    (mounted
       {| Favorites.getItem_rejects := true;
          Favorites.setItem_rejects := false |}
       (Favorites.Json [Samples.movieX; Samples.movieY]))
  = EmptyState.
Proof.
  exact (proj1 (@favorites_read_rejected
                  {| Favorites.getItem_rejects := true;
                     Favorites.setItem_rejects := false |}
                  (Favorites.Json [Samples.movieX; Samples.movieY]) eq_refl)).
Defined.

End FavoritesScreenFacts.

(** ** More on the search session *)

Module SearchMoreFacts.

Import Search.
Local Open Scope Z_scope.

(** With a query that is not blank but cannot be encoded, [searchMovies]
    goes through [catch] and [finally] before any fetch. *)
Lemma searchMovies_unencodable (q : JS.text) (p : Z) (s : State) :
  blank q = false -> JS.encodable q = false ->
  searchMovies q p s
  = {| query := query s; movies := movies s; page := page s;
       loading := false; error := Some failedToFetch; hasMore := hasMore s;
       pending := pending s;
       console := console s ++ [JS.lit "Error fetching movies:"] |}.
Proof.
  intros Hb He. unfold searchMovies. rewrite Hb, He. reflexivity.
Qed.

(** The three ways [searchMovies] can go before its [await]. *)
Ltac searchMovies_cases q :=
  let Hb := fresh "Hblank" in
  let He := fresh "Henc" in
  destruct (blank q) eqn:Hb;
  [ rewrite (SearchFacts.searchMovies_blank q _ _ Hb)
  | destruct (JS.encodable q) eqn:He;
    [ rewrite (SearchFacts.searchMovies_fetches q _ _ Hb He)
    | rewrite (searchMovies_unencodable q _ _ Hb He) ] ].

(** The three ways it can go after it. *)
Ltac settled_cases r o s :=
  let E := fresh "Hnet" in
  destruct (networkError o) eqn:E;
  [ rewrite (SearchFacts.settled_networkError r o s E)
  | let response := fresh "response" in
    let data := fresh "data" in
    destruct o as [response|]; [|discriminate E];
    unfold networkError in E;
    destruct (ok response) eqn:?; [|discriminate E];
    destruct (json response) as [data|] eqn:?; [|discriminate E];
    destruct (JS.eqb (Data.Response data) (JS.lit "True")) eqn:?;
    [ erewrite SearchFacts.settled_found by eassumption
    | erewrite SearchFacts.settled_notFound by eassumption ] ].

(** Every event, every way. *)
Ltac step_cases s e :=
  destruct e as [text | | | r o]; unfold step, handleSearch, loadMore;
  [ idtac
  | searchMovies_cases (query s)
  | destruct (negb (loading s) && hasMore s) eqn:?;
    [ searchMovies_cases (query s) | idtac ]
  | destruct (existsb (requestEqb r) (pending s)) eqn:?;
    [ settled_cases r o (setPending (settle r (pending s)) s) | idtac ] ].

Lemma page_positive_witness :
  1 <= page (run [ChangeText Samples.batman; Submit; EndReached] initial).
Proof.
  assert (H : 1 <= page initial) by (cbn; lia).
  exact (SearchFacts.page_positive
           [ChangeText Samples.batman; Submit; EndReached] initial H).
Defined.

Lemma error_step (s : State) (e : Event) :
  error s <> Some [] -> error (step s e) <> Some [].
Proof.
  intros Hs. step_cases s e; cbn; try exact Hs; try discriminate.
  destruct (Data.Error data) as [msg|]; [|exact Hs].
  destruct (JS.truthy msg) eqn:Ht; [|exact Hs].
  intros H. inversion H; subst. discriminate Ht.
Qed.

(** X9: the error state is never the empty string, whatever events
    follow: it is [null], the "try again" message or a non-empty message of
    the catalog, so the banner test [error && ...] never yields a bare
    empty string. *)
Theorem error_never_empty (es : list Event) (s : State) :
  error s <> Some [] -> error (run es s) <> Some [].
Proof.
  revert s. unfold run.
  induction es as [|e es IH]; intros s Hs; cbn [fold_left]; [exact Hs|].
  apply IH. apply error_step. exact Hs.
Qed.

Lemma error_never_empty_witness :
  error Samples.nothingFound <> Some [].
Proof.
  assert (H : error initial <> Some []) by discriminate.
  exact (@error_never_empty
           [ChangeText (JS.lit "zzzz"); Submit;
            Settled (Samples.request (JS.lit "zzzz") 1)
              (notFound (Some (JS.lit "Movie not found!")))]
           initial H).
Defined.

Lemma idle_step (s : State) (e : Event) :
  (pending s = [] -> loading s = false) ->
  pending (step s e) = [] -> loading (step s e) = false.
Proof.
  intros Hs. step_cases s e; cbn; try exact Hs; try reflexivity;
    intros H; apply app_eq_nil in H; destruct H; discriminate.
Qed.

(** X10: the spinner does not outlive the fetches: if [loading] is false
    whenever nothing is in flight, this stays so after any events; from
    the initial screen, [loading] is false as soon as every fetch has
    settled. *)
Theorem idle_not_loading (es : list Event) (s : State) :
  (pending s = [] -> loading s = false) ->
  pending (run es s) = [] -> loading (run es s) = false.
Proof.
  revert s. unfold run.
  induction es as [|e es IH]; intros s Hs; cbn [fold_left]; [exact Hs|].
  apply IH. apply idle_step. exact Hs.
Qed.

Lemma idle_not_loading_witness :
  loading Samples.staleReply = false.
Proof.
  refine (@idle_not_loading
            [ChangeText (JS.lit "a"); Submit; ChangeText (JS.lit "b"); Submit;
             Settled (Samples.request (JS.lit "b") 1)
               (found [Samples.movieY] 1);
             Settled (Samples.request (JS.lit "a") 1)
               (found [Samples.movieX] 1)]
            initial (fun _ => eq_refl) eq_refl).
Defined.

(** X11: a page whose fetch fails is not asked for again: after
    [loadMore] has fetched page [page + 1] and the fetch has failed, the
    screen shows the "try again" message with the list as it was, and the
    next [loadMore] fetches page [page + 2]. *)
Theorem failed_page_skipped (s : State) (o : Outcome) :
  loading s = false -> hasMore s = true ->
  blank (query s) = false -> JS.encodable (query s) = true ->
  networkError o = true ->
  let r := {| searchQuery := query s; pageNum := page s + 1 |} in
  let failed := step (loadMore s) (Settled r o) in
  error failed = Some failedToFetch
  /\ movies failed = movies s
  /\ page failed = page s + 1
  /\ pending (loadMore failed)
     = pending failed ++ [{| searchQuery := query s; pageNum := page s + 2 |}]
  /\ page (loadMore failed) = page s + 2.
Proof.
  intros Hl Hh Hb He Hnet r failed.
  assert (Hfailed :
            failed
            = {| query := query s; movies := movies s; page := page s + 1;
                 loading := false; error := Some failedToFetch;
                 hasMore := true;
                 pending := settle r (pending s ++ [r]);
                 console := console s ++ [JS.lit "Error fetching movies:"] |}).
  { subst failed. unfold loadMore. rewrite Hl, Hh. cbn [negb andb].
    rewrite SearchFacts.searchMovies_fetches by assumption.
    unfold step. cbn [pending setPage]. fold r.
    rewrite existsb_app. cbn [existsb].
    rewrite SearchFacts.requestEqb_refl, orb_true_r.
    rewrite SearchFacts.settled_networkError by exact Hnet.
    cbn. rewrite Hh. reflexivity. }
  rewrite Hfailed. cbn [error movies page pending].
  split; [reflexivity|]. split; [reflexivity|]. split; [reflexivity|].
  unfold loadMore. cbn [loading hasMore negb andb query page].
  rewrite SearchFacts.searchMovies_fetches by assumption.
  cbn [pending page setPage].
  replace (page s + 1 + 1) with (page s + 2) by lia.
  split; reflexivity.
Qed.

Lemma failed_page_skipped_witness :
  pending
    (loadMore
       (step (loadMore Samples.batmanPage1)
          (Settled (Samples.request Samples.batman 2) Throw)))
  = [Samples.request Samples.batman 3].
Proof.
  exact (proj1 (proj2 (proj2 (proj2
           (@failed_page_skipped Samples.batmanPage1 Throw
              eq_refl eq_refl eq_refl eq_refl eq_refl))))).
Defined.

(** X12: pagination stops at the last page: after a reply that is not
    ['True'], or a ['True'] reply whose total does not exceed ten times its
    page, [loadMore] does nothing. *)
Theorem loadMore_after_last_page
  (r : Request) (response : HttpResponse) (data : Data.t) (s : State) :
  existsb (requestEqb r) (pending s) = true ->
  ok response = true -> json response = Ok data ->
  JS.eqb (Data.Response data) (JS.lit "True") = false
  \/ Data.totalResults data <= pageNum r * 10 ->
  loadMore (step s (Settled r (Ok response)))
  = step s (Settled r (Ok response)).
Proof.
  intros Hpend Hok Hjson Hlast. unfold step. rewrite Hpend.
  destruct (JS.eqb (Data.Response data) (JS.lit "True")) eqn:Htrue.
  - destruct Hlast as [Hlast | Hlast]; [discriminate|].
    rewrite (SearchFacts.settled_found r response _ Hok Hjson Htrue).
    unfold loadMore. cbn [loading hasMore negb andb].
    replace (Data.totalResults data >? pageNum r * 10) with false;
      [reflexivity|].
    symmetry. rewrite Z.gtb_ltb. apply Z.ltb_ge. exact Hlast.
  - rewrite (SearchFacts.settled_notFound r response _ Hok Hjson Htrue).
    reflexivity.
Qed.

Lemma loadMore_after_last_page_witness :
  loadMore
    (step (loadMore Samples.batmanPage1)
       (Settled (Samples.request Samples.batman 2)
          (found (Samples.fiveFrom "tt02") 20)))
  = step (loadMore Samples.batmanPage1)
      (Settled (Samples.request Samples.batman 2)
         (found (Samples.fiveFrom "tt02") 20)).
Proof.
  refine (@loadMore_after_last_page (Samples.request Samples.batman 2)
            (replyWith (foundData (Samples.fiveFrom "tt02") 20))
            (foundData (Samples.fiveFrom "tt02") 20)
            (loadMore Samples.batmanPage1) eq_refl eq_refl eq_refl _).
  right. cbn. lia.
Defined.

(** X13: a submit always restarts the session: whatever the query (blank,
    not encodable or fetched) and whatever is in flight, the page is 1 and
    the list is empty afterwards, and [hasMore] keeps the value it had. *)
Theorem submit_restarts (s : State) :
  page (step s Submit) = 1
  /\ movies (step s Submit) = []
  /\ hasMore (step s Submit) = hasMore s.
Proof.
  unfold step, handleSearch.
  searchMovies_cases (query s); repeat split.
Qed.

(** X14: a query that is not blank but holds a lone surrogate cannot be
    put in the URL: a submit then fetches nothing, shows the "try again"
    message and is not loading. *)
Theorem submit_unencodable (s : State) :
  blank (query s) = false -> JS.encodable (query s) = false ->
  pending (step s Submit) = pending s
  /\ error (step s Submit) = Some failedToFetch
  /\ loading (step s Submit) = false.
Proof.
  intros Hb He. unfold step, handleSearch.
  rewrite searchMovies_unencodable by assumption.
  repeat split.
Qed.

Lemma submit_unencodable_witness :
  pending (step Samples.loneSurrogate Submit) = []
  /\ error (step Samples.loneSurrogate Submit) = Some failedToFetch
  /\ loading (step Samples.loneSurrogate Submit) = false.
Proof.
  exact (@submit_unencodable Samples.loneSurrogate eq_refl eq_refl).
Defined.

(** X15: a reply without results that carries a message is shown as that
    message in the error banner, and the "No movies found" text is not
    shown with it. *)
Theorem notFound_message_shown
  (r : Request) (response : HttpResponse) (data : Data.t) (msg : JS.text)
  (s : State) :
  existsb (requestEqb r) (pending s) = true ->
  ok response = true -> json response = Ok data ->
  JS.eqb (Data.Response data) (JS.lit "True") = false ->
  Data.Error data = Some msg -> JS.truthy msg = true ->
  error (step s (Settled r (Ok response))) = Some msg
  /\ SearchView.showsError (step s (Settled r (Ok response))) = true
  /\ SearchView.showsNoMoviesFound (step s (Settled r (Ok response))) = false.
Proof.
  intros Hpend Hok Hjson Hfalse Herr Hmsg. unfold step. rewrite Hpend.
  rewrite (SearchFacts.settled_notFound r response _ Hok Hjson Hfalse).
  unfold SearchView.showsNoMoviesFound, SearchView.ListEmptyComponent,
    SearchView.showsError.
  cbn [error movies loading query]. rewrite Herr, Hmsg.
  split; [reflexivity|]. split; [exact Hmsg|].
  rewrite Hmsg. cbn [negb andb].
  destruct (if pageNum r =? 1 then [] else movies (setPending _ s));
    reflexivity.
Qed.

Lemma notFound_message_shown_witness :
  SearchView.showsError Samples.nothingFound = true
  /\ SearchView.showsNoMoviesFound Samples.nothingFound = false.
Proof.
  exact (proj2 (@notFound_message_shown
                  (Samples.request (JS.lit "zzzz") 1)
                  (replyWith (notFoundData (Some (JS.lit "Movie not found!"))))
                  (notFoundData (Some (JS.lit "Movie not found!")))
                  (JS.lit "Movie not found!")
                  (run [ChangeText (JS.lit "zzzz"); Submit] initial)
                  eq_refl eq_refl eq_refl eq_refl eq_refl eq_refl)).
Defined.

(** X16: the empty-list text tests [query], not [query.trim()]: after a
    submit of a text made of white space only, with nothing loading, the
    screen shows "No movies found" although nothing was fetched. *)
Theorem blank_submit_shows_empty (s : State) :
  forallb JS.isWhiteSpace (query s) = true ->
  JS.truthy (query s) = true ->
  loading s = false ->
  SearchView.showsNoMoviesFound (step s Submit) = true
  /\ pending (step s Submit) = pending s.
Proof.
  intros Hws Hq Hl. apply blank_whitespace in Hws.
  unfold step, handleSearch.
  rewrite SearchFacts.searchMovies_blank by exact Hws.
  unfold SearchView.showsNoMoviesFound, SearchView.ListEmptyComponent,
    SearchView.showsError.
  cbn. rewrite Hl, Hq. split; reflexivity.
Qed.

Lemma blank_submit_shows_empty_witness :
  SearchView.showsNoMoviesFound
    (step (setQuery [32; 32]%N Samples.batmanPage1) Submit)
  = true.
Proof.
  exact (proj1 (@blank_submit_shows_empty
                  (setQuery [32; 32]%N Samples.batmanPage1)
                  eq_refl eq_refl eq_refl)).
Defined.

(** X17: only [loadMore] waits for a fetch in flight: while [loading],
    reaching the end of the list changes nothing, but a submit of a usable
    query puts one more fetch in flight beside those already there. *)
Theorem submit_not_gated (s : State) :
  loading s = true ->
  blank (query s) = false -> JS.encodable (query s) = true ->
  step s EndReached = s
  /\ pending (step s Submit)
     = pending s ++ [{| searchQuery := query s; pageNum := 1 |}].
Proof.
  intros Hl Hb He. split.
  - unfold step, loadMore. rewrite Hl. reflexivity.
  - unfold step, handleSearch.
    rewrite SearchFacts.searchMovies_fetches by assumption. reflexivity.
Qed.

Lemma submit_not_gated_witness :
  pending
    (step (run [ChangeText Samples.batman; Submit] initial) Submit)
  = [Samples.request Samples.batman 1; Samples.request Samples.batman 1].
Proof.
  exact (proj2 (@submit_not_gated
                  (run [ChangeText Samples.batman; Submit] initial)
                  eq_refl eq_refl eq_refl)).
Defined.

(** X18: [loadMore] fetches for the text in the text box, submitted or
    not: after the text is changed to a usable [b] without a submit, the
    next page is fetched for [b], and its results are appended to the list
    already shown. *)
Theorem loadMore_uses_typed_text
  (b : JS.text) (results : list Movie.t) (total : Z) (s : State) :
  loading s = false -> hasMore s = true -> 1 <= page s ->
  blank b = false -> JS.encodable b = true ->
  let r := {| searchQuery := b; pageNum := page s + 1 |} in
  let scrolled := run [ChangeText b; EndReached] s in
  pending scrolled = pending s ++ [r]
  /\ movies scrolled = movies s
  /\ movies (step scrolled (Settled r (found results total)))
     = movies s ++ results.
Proof.
  intros Hl Hh Hp Hb He r scrolled.
  assert (Hs : scrolled
               = {| query := b; movies := movies s; page := page s + 1;
                    loading := true; error := None; hasMore := hasMore s;
                    pending := pending s ++ [r]; console := console s |}).
  { subst scrolled. unfold run; cbn [fold_left]. unfold step, loadMore.
    cbn [loading hasMore setQuery query page]. rewrite Hl, Hh.
    cbn [negb andb].
    rewrite SearchFacts.searchMovies_fetches by assumption.
    cbn. rewrite Hh. reflexivity. }
  rewrite Hs. cbn [pending movies].
  split; [reflexivity|]. split; [reflexivity|].
  unfold step. cbn [pending]. rewrite existsb_app. cbn [existsb].
  rewrite SearchFacts.requestEqb_refl, orb_true_r.
  rewrite SearchFacts.settled_found_reply. cbn [movies setPending pageNum r].
  destruct (page s + 1 =? 1) eqn:E; [|reflexivity].
  apply Z.eqb_eq in E. lia.
Qed.

Lemma loadMore_uses_typed_text_witness :
  pending (run [ChangeText (JS.lit "robin"); EndReached] Samples.batmanPage1)
  = [Samples.request (JS.lit "robin") 2]
  /\ movies
       (step
          (run [ChangeText (JS.lit "robin"); EndReached] Samples.batmanPage1)
          (Settled (Samples.request (JS.lit "robin") 2)
             (found [Samples.movieX] 1)))
     = Samples.fiveFrom "tt01" ++ [Samples.movieX].
Proof.
  assert (Hp : 1 <= page Samples.batmanPage1) by (cbn; lia).
  pose proof (@loadMore_uses_typed_text (JS.lit "robin") [Samples.movieX] 1
                Samples.batmanPage1 eq_refl eq_refl Hp eq_refl eq_refl) as H.
  split; [exact (proj1 H) | exact (proj2 (proj2 H))].
Defined.

End SearchMoreFacts.

(** ** Calls of the toggle in flight *)

Module DetailAsyncFacts.

Import Favorites.
Import DetailAsync.

(** A call that runs alone is [toggleFavorite]. *)
Lemma alone_toggleFavorite (f : Faults) (sc : Screen) :
  idle sc = true ->
  run (alone f) sc = {| state := toggleFavorite f (state sc); calls := [] |}.
Proof.
  destruct sc as [s cs]. unfold idle; cbn [calls state].
  destruct cs as [|c cs]; [intros _|discriminate].
  destruct f as [r w]. unfold run, alone; cbn [fold_left getItem_rejects
    setItem_rejects].
  unfold toggleFavorite, toggleFavorite_try.
  unfold step at 3. cbn [state calls].
  destruct (movie s) as [m|] eqn:Hm; [|reflexivity].
  cbn [app]. unfold step at 2. cbn [calls state nth_error].
  unfold afterGetItem, getItem, reading; cbn [getItem_rejects].
  destruct r; cbn [bind]; [reflexivity|].
  destruct (storage s) eqn:Hst; cbn [truthy JSON_parse bind];
    try reflexivity;
    unfold step; cbn [calls state nth_error replaceAt removeAt];
    unfold afterSetItem, setItem, writing; cbn [setItem_rejects];
    destruct w; reflexivity.
Qed.

Lemma alone_storage (f : Faults) (sc : Screen) :
  idle sc = true ->
  storage (state (run (alone f) sc)) = storage (toggleFavorite f (state sc)).
Proof. intros H. rewrite alone_toggleFavorite by exact H. reflexivity. Qed.

(** C2, as stated, fails: the list holds Y alone, without duplicate ids;
    the heart of X is pressed, with the flag (false) reflecting the stored
    list, and pressed again while the first call awaits its write, the
    flag (still false) reflecting the stored list (still Y alone); the
    first call writes [Y; X] and the second, which reads after that write
    with the flag it was created with, writes [Y; X; X]. *)
Lemma overlapping_taps_duplicate :
  NoDup (ids (storage (state Samples.idleOnX)))
  /\ flagReflectsStore (state Samples.idleOnX)
  /\ storage (state Samples.firstWriting) = Json [Samples.movieY]
  /\ flagReflectsStore (state Samples.firstWriting)
  /\ storage (state Samples.doubleTap)
     = Json [Samples.movieY; Samples.movieX; Samples.movieX]
  /\ ~ NoDup (ids (storage (state Samples.doubleTap))).
Proof.
  split; [constructor; [intros [] | constructor]|].
  split; [reflexivity|]. split; [reflexivity|]. split; [reflexivity|].
  split; [reflexivity|].
  intros H. inversion H as [|? ? _ H']; subst.
  inversion H' as [|? ? Hin _]; subst.
  apply Hin. left. reflexivity.
Qed.

(** C2, amended: from a stored list without duplicate ids, any finite
    sequence of toggle calls that do not overlap (each one, started with
    nothing in flight, reads and writes before the next is started), each
    started with the flag reflecting the movie's membership in the stored
    list, leaves a list without duplicate ids, whatever storage failures
    the calls meet. *)
Theorem solo_toggles_keep_ids_unique (st st' : Stored) :
  NoDup (ids st) -> soloToggles st st' -> NoDup (ids st').
Proof.
  intros Hnd Hsteps. induction Hsteps as [st | st st' st'' Hstep _ IH].
  - exact Hnd.
  - apply IH. destruct Hstep as [f sc Hidle Hflag].
    rewrite alone_storage by exact Hidle.
    apply FavoritesFacts.toggle_keeps_ids_unique; assumption.
Qed.

Lemma solo_toggles_keep_ids_unique_witness :
  NoDup (ids (Json [Samples.movieY; Samples.movieX])).
Proof.
  assert (H0 : NoDup (ids (Json [Samples.movieY]))).
  { constructor; [intros [] | constructor]. }
  refine (@solo_toggles_keep_ids_unique (Json [Samples.movieY]) _ H0 _).
  refine (SoloMore _ (SoloNone _)).
  exact (@SoloToggle no_fault Samples.idleOnX eq_refl eq_refl).
Defined.





End DetailAsyncFacts.
